(** * Trust Lens: severity-first classification pipeline

    A shallow embedding of [backend/main.py] and [backend/ai_generator.py]
    and the properties of the pipeline stated over it.

    Conventions of the embedding.

    - A Python [str] is a [string]; a character of a text that the program
      inspects (the analysed content, a context tag, a signal title) is a
      code point in U+0000..U+00FF.  On that alphabet [str.lower], [\w],
      [\s], [\b] and [str.strip] are the tables of CPython 3.  String
      constants of the source that hold characters outside that alphabet
      (the tier labels, the action lists) are kept as the bytes of the
      source file; the program only stores, concatenates and returns them.
    - A Python [int] is a [Z]; a [float] literal is the decimal rational it
      denotes (no arithmetic is ever done on the confidences).
    - [Optional[T]] is [option T]; a pydantic model is a record.
    - The network and the process environment are a [World]: the two API
      keys and one oracle per HTTP verb; an oracle answers [None] when the
      client raises (time-out, transport error). *)

From Stdlib Require Import Bool Arith ZArith NArith QArith Lia List.
From Stdlib Require Import Ascii String DecimalString.
Import ListNotations.

Set Warnings "-register-all".
Local Close Scope Q_scope.

Local Open Scope string_scope.
Local Open Scope list_scope.
Local Open Scope bool_scope.

(* ================================================================== *)
(** ** Python strings *)

Module PyStr.

Definition code (c : ascii) : N := N_of_ascii c.

Definition between (lo hi : N) (c : ascii) : bool :=
  ((lo <=? code c) && (code c <=? hi))%N.

Definition is_code (n : N) (c : ascii) : bool := (code c =? n)%N.

(** [str.isspace] / the class [\s] of a [str] pattern. *)
Definition is_space (c : ascii) : bool :=
  between 9 13 c || between 28 32 c || is_code 133 c || is_code 160 c.

(** The class [\w] of a [str] pattern: alphanumeric or underscore. *)
Definition is_word (c : ascii) : bool :=
  between 48 57 c || between 65 90 c || between 97 122 c || is_code 95 c
  || is_code 170 c || is_code 178 c || is_code 179 c || is_code 181 c
  || is_code 185 c || is_code 186 c || between 188 190 c
  || between 192 214 c || between 216 246 c || between 248 255 c.

(** The characters [str.lower] changes: A-Z and the Latin-1 capitals. *)
Definition is_upper (c : ascii) : bool :=
  between 65 90 c || between 192 214 c || between 216 222 c.

Definition lower_char (c : ascii) : ascii :=
  if is_upper c then ascii_of_N (code c + 32) else c.

Fixpoint lower (s : string) : string :=
  match s with
  | EmptyString => EmptyString
  | String c s' => String (lower_char c) (lower s')
  end.

(** [str.upper] on the ASCII letters; its only argument in the program is a
    tier name. *)
Definition upper_char (c : ascii) : ascii :=
  if between 97 122 c then ascii_of_N (code c - 32) else c.

Fixpoint upper (s : string) : string :=
  match s with
  | EmptyString => EmptyString
  | String c s' => String (upper_char c) (upper s')
  end.

(** [s.startswith(p)], returning what follows the prefix. *)
Fixpoint drop_prefix (p s : string) : option string :=
  match p with
  | EmptyString => Some s
  | String a p' =>
      match s with
      | EmptyString => None
      | String b s' => if Ascii.eqb a b then drop_prefix p' s' else None
      end
  end.

(** [needle in hay]. *)
Fixpoint contains (needle hay : string) : bool :=
  match drop_prefix needle hay with
  | Some _ => true
  | None =>
      match hay with
      | EmptyString => false
      | String _ hay' => contains needle hay'
      end
  end.

(** [s in xs] for a list of strings. *)
Definition mem (s : string) (xs : list string) : bool :=
  existsb (String.eqb s) xs.

Fixpoint lstrip (s : string) : string :=
  match s with
  | String c s' => if is_space c then lstrip s' else s
  | EmptyString => EmptyString
  end.

Fixpoint rstrip (s : string) : string :=
  match s with
  | EmptyString => EmptyString
  | String c s' =>
      match rstrip s' with
      | EmptyString => if is_space c then EmptyString else String c EmptyString
      | t => String c t
      end
  end.

(** [s.strip()]. *)
Definition strip (s : string) : string := rstrip (lstrip s).

(** [sep.join(xs)]. *)
Fixpoint join (sep : string) (xs : list string) : string :=
  match xs with
  | [] => EmptyString
  | [x] => x
  | x :: rest => x ++ sep ++ join sep rest
  end.

(** [str(n)] for an [int]. *)
Definition str_of_int (n : Z) : string :=
  NilZero.string_of_int (Z.to_int n).

(** [s[:n]] for a non-negative [n]. *)
Fixpoint take (n : nat) (s : string) : string :=
  match n, s with
  | S n', String c s' => String c (take n' s')
  | _, _ => EmptyString
  end.

(** Truthiness of a [str]. *)
Definition truthy (s : string) : bool :=
  match s with EmptyString => false | _ => true end.

End PyStr.

(* ================================================================== *)
(** ** The fragment of [re] the program uses

    Literals (also under [re.IGNORECASE]), character classes,
    concatenation, alternation, greedy [?],
    greedy [*] and [+] over one character class (the only repetitions the
    patterns contain), [\b], and one capturing group.  The matcher is the
    backtracking search of [re]: alternatives left to right, repetitions
    longest first, start positions left to right. *)

Module Re.
Import PyStr.

Inductive regex : Type :=
| Lit (s : string)
| LitI (s : string)
| Cls (p : ascii -> bool)
| Cat (r1 r2 : regex)
| Alt (r1 r2 : regex)
| Opt (r : regex)
| Star (p : ascii -> bool)
| Plus (p : ascii -> bool)
| WordB
| Group (r : regex).

Declare Scope re_scope.
Delimit Scope re_scope with re.
Bind Scope re_scope with regex.
Infix ">>" := Cat (at level 40, left associativity) : re_scope.
Infix "<|>" := Alt (at level 50, left associativity) : re_scope.

(** [.] without [re.DOTALL]: anything but a newline. *)
Definition dot (c : ascii) : bool := negb (is_code 10 c).
Definition any : regex := Star dot.
Definition chr (a : ascii) (c : ascii) : bool := Ascii.eqb a c.
Definition one_of (s : string) (c : ascii) : bool :=
  existsb (Ascii.eqb c) (list_ascii_of_string s).

(** State of one match attempt: the character before the cursor, the text
    after it, and the text of group 1 when it has taken part. *)
Record cursor : Type := Cursor {
  before : option ascii;
  rest : string;
  group1 : option string
}.

Definition word_at (o : option ascii) : bool :=
  match o with Some c => is_word c | None => false end.

Definition next_char (s : string) : option ascii :=
  match s with String c _ => Some c | EmptyString => None end.

Fixpoint last_char (s : string) (d : option ascii) : option ascii :=
  match s with
  | EmptyString => d
  | String c s' => last_char s' (Some c)
  end.

(** The text between two cursors of the same subject. *)
Definition consumed (from to : string) : string :=
  take (String.length from - String.length to) from.

(** [drop_prefix] under [re.IGNORECASE]: characters are compared after
    lower-casing. *)
Fixpoint drop_prefix_i (p s : string) : option string :=
  match p with
  | EmptyString => Some s
  | String a p' =>
      match s with
      | EmptyString => None
      | String b s' =>
          if Ascii.eqb (lower_char a) (lower_char b)
          then drop_prefix_i p' s' else None
      end
  end.

Section Matcher.
Context {A : Type}.

Definition or_else (x : option A) (y : unit -> option A) : option A :=
  match x with Some _ => x | None => y tt end.

Fixpoint star (p : ascii -> bool) (b : option ascii) (s : string)
    (g : option string) (k : cursor -> option A) : option A :=
  match s with
  | String c s' =>
      if p c
      then or_else (star p (Some c) s' g k) (fun _ => k (Cursor b s g))
      else k (Cursor b s g)
  | EmptyString => k (Cursor b s g)
  end.

Fixpoint run (r : regex) (cur : cursor) (k : cursor -> option A)
    : option A :=
  match r with
  | Lit s =>
      match drop_prefix s (rest cur) with
      | Some s' => k (Cursor (last_char s (before cur)) s' (group1 cur))
      | None => None
      end
  | LitI s =>
      match drop_prefix_i s (rest cur) with
      | Some s' =>
          k (Cursor (last_char (consumed (rest cur) s') (before cur)) s'
                    (group1 cur))
      | None => None
      end
  | Cls p =>
      match rest cur with
      | String c s' =>
          if p c then k (Cursor (Some c) s' (group1 cur)) else None
      | EmptyString => None
      end
  | Cat r1 r2 => run r1 cur (fun cur' => run r2 cur' k)
  | Alt r1 r2 => or_else (run r1 cur k) (fun _ => run r2 cur k)
  | Opt r1 => or_else (run r1 cur k) (fun _ => k cur)
  | Star p => star p (before cur) (rest cur) (group1 cur) k
  | Plus p =>
      match rest cur with
      | String c s' =>
          if p c then star p (Some c) s' (group1 cur) k else None
      | EmptyString => None
      end
  | WordB =>
      if xorb (word_at (before cur)) (word_at (next_char (rest cur)))
      then k cur else None
  | Group r1 =>
      run r1 cur (fun cur' =>
        k (Cursor (before cur') (rest cur')
                  (Some (consumed (rest cur) (rest cur')))))
  end.

End Matcher.

(** A match object: [m.group(0)], [m.group(1)] and the cursor at its end. *)
Record match_obj : Type := Match {
  group0 : string;
  grp1 : option string;
  stop : cursor
}.

Definition match_at (r : regex) (b : option ascii) (s : string)
    : option match_obj :=
  run r (Cursor b s None)
      (fun cur => Some (Match (consumed s (rest cur)) (group1 cur) cur)).

(** [re.search(r, s)], scanning from a cursor. *)
Fixpoint search_from (r : regex) (b : option ascii) (s : string)
    : option match_obj :=
  match match_at r b s with
  | Some m => Some m
  | None =>
      match s with
      | String c s' => search_from r (Some c) s'
      | EmptyString => None
      end
  end.

Definition search (r : regex) (s : string) : option match_obj :=
  search_from r None s.

(** [bool(re.search(r, s))]. *)
Definition found (r : regex) (s : string) : bool :=
  match search r s with Some _ => true | None => false end.

(** [re.findall(r, s)] as the successive non-overlapping matches, each scan
    resuming where the previous match stopped.  The patterns the program
    passes to it match at least one character, so the subject shrinks at
    every step and [S (length s)] steps exhaust it. *)
Fixpoint findall_from (fuel : nat) (r : regex) (b : option ascii)
    (s : string) : list match_obj :=
  match fuel with
  | O => []
  | S fuel' =>
      match search_from r b s with
      | None => []
      | Some m =>
          m :: findall_from fuel' r (before (stop m)) (rest (stop m))
      end
  end.

Definition findall (r : regex) (s : string) : list match_obj :=
  findall_from (S (String.length s)) r None s.

End Re.

(* ================================================================== *)
(** ** Data models ([main.py]) *)

Inductive SignalLevel : Type := GREEN | YELLOW | RED.

Definition SignalLevel_eqb (a b : SignalLevel) : bool :=
  match a, b with
  | GREEN, GREEN | YELLOW, YELLOW | RED, RED => true
  | _, _ => false
  end.

Record Signal : Type := mkSignal {
  name : string;
  level : SignalLevel;
  message : string;
  confidence : Q
}.

Record BusinessPriorityAssessment : Type := mkBusinessPriority {
  strategicImportance : string;
  attentionWorthiness : string;
  riskToRewardBalance : string;
  timeRecommendation : string;
  bp_confidenceFactors : list string;
  concerns : list string
}.

Record CompanyAssessment : Type := mkCompanyAssessment {
  visibility : string;
  trackRecord : string;
  flags : list string;
  ca_confidenceFactors : list string
}.

(** A decoded JSON value: what [response.json()] returns and what a
    [Dict] field of a request holds.  An object keeps its keys in order and
    holds each key once. *)
Inductive json : Type :=
| JNull
| JBool (b : bool)
| JNum (q : Q)
| JStr (s : string)
| JArr (xs : list json)
| JObj (kvs : list (string * json)).

Definition Dict : Type := list (string * json).

Record TrustAnalysis : Type := mkTrustAnalysis {
  overall_score : Z;
  overall_level : string;
  signals : list Signal;
  external_checks : list Dict;
  summary : string;
  whatYouMightMiss : string;
  recommendedActions : list string;
  businessPriority : option BusinessPriorityAssessment;
  companyAssessment : option CompanyAssessment;
  detectedContext : string;
  concernCount : Z;
  severityLevel : string
}.

(** [sum(1 for x in xs if p x)]. *)
Definition count_if {A : Type} (p : A -> bool) (xs : list A) : Z :=
  fold_left (fun acc x => if p x then acc + 1 else acc)%Z xs 0%Z.

Definition is_red (s : Signal) : bool := SignalLevel_eqb (level s) RED.
Definition is_green (s : Signal) : bool := SignalLevel_eqb (level s) GREEN.

(* ================================================================== *)
(** ** Context detector *)

Import PyStr.

Definition legal_markers : list string :=
  ["terms of service"; "user agreement"; "privacy policy"; "legal agreement";
   "contract"; "terms and conditions"; "terms of use"; "binding arbitration";
   "liability waiver"; "indemnification"; "intellectual property"].

Definition partnership_words : list string :=
  ["partnership"; "collaboration"; "synergy"; "strategic alliance"].

Definition client_words : list string :=
  ["client inquiry"; "customer inquiry"; "interested in your services"].

Definition vendor_words : list string :=
  ["vendor"; "supplier"; "quote"; "pricing"].

Definition employment_words : list string :=
  ["job offer"; "employment"; "hiring"; "position"; "salary"].

(** [any(word in lower for word in words)]. *)
Definition any_in (words : list string) (lower : string) : bool :=
  existsb (fun word => contains word lower) words.

Definition detect_context (content content_type : string) : string :=
  let lower := lower content in
  let legal_count :=
    count_if (fun marker => contains marker lower) legal_markers in
  if (legal_count >=? 2)%Z || contains "terms of service" lower
     || contains "user agreement" lower
  then "legal_agreement"
  else if any_in partnership_words lower then "partnership_offer"
  else if any_in client_words lower then "client_inquiry"
  else if any_in vendor_words lower && negb (contains "contract" lower)
  then "vendor_proposal"
  else if any_in employment_words lower then "consumer_message"
  else "consumer_message".

(* ================================================================== *)
(** ** Rule engine *)

(** The rule classes; every instance carries [name] and [weight] of
    [TrustRule.__init__]. *)
Inductive RuleClass : Type :=
| LegalClause
| HighPressurePattern
| Verifiability.

Record TrustRule : Type := mkRule {
  rule_class : RuleClass;
  rule_name : string;
  weight : Q
}.

(** [type(rule).__name__]. *)
Definition class_name (r : TrustRule) : string :=
  match rule_class r with
  | LegalClause => "LegalClauseRule"
  | HighPressurePattern => "HighPressurePatternRule"
  | Verifiability => "VerifiabilityRule"
  end.

(** The patterns of the program, each under the source text it renders;
    [clause_1] to [clause_14] are those of
    [LegalClauseRule.CONCERNING_PATTERNS], in order. *)
Module Patterns.
Import Re.
Local Open Scope re_scope.

(** [irrevocably agree|binding arbitration.*waive.*(court|trial|jury)] *)
Definition clause_1 : regex :=
  Lit "irrevocably agree"
  <|> Lit "binding arbitration" >> any >> Lit "waive" >> any
      >> (Lit "court" <|> Lit "trial" <|> Lit "jury").
(** [class action.*waive|waive.*class action] *)
Definition clause_2 : regex :=
  Lit "class action" >> any >> Lit "waive"
  <|> Lit "waive" >> any >> Lit "class action".
(** [unilateral.*change|modify.*without notice|without notification] *)
Definition clause_3 : regex :=
  Lit "unilateral" >> any >> Lit "change"
  <|> Lit "modify" >> any >> Lit "without notice"
  <|> Lit "without notification".
(** [sell.*data|monetize.*data|third.parties.*without restriction|transferable.*license.*data] *)
Definition clause_4 : regex :=
  Lit "sell" >> any >> Lit "data"
  <|> Lit "monetize" >> any >> Lit "data"
  <|> Lit "third" >> Cls dot >> Lit "parties" >> any
      >> Lit "without restriction"
  <|> Lit "transferable" >> any >> Lit "license" >> any >> Lit "data".
(** [perpetual.*irrevocable.*license|worldwide.*license.*content] *)
Definition clause_5 : regex :=
  Lit "perpetual" >> any >> Lit "irrevocable" >> any >> Lit "license"
  <|> Lit "worldwide" >> any >> Lit "license" >> any >> Lit "content".
(** [non.refundable.*error|no.*refund.*error|payments.*non.refundable] *)
Definition clause_6 : regex :=
  Lit "non" >> Cls dot >> Lit "refundable" >> any >> Lit "error"
  <|> Lit "no" >> any >> Lit "refund" >> any >> Lit "error"
  <|> Lit "payments" >> any >> Lit "non" >> Cls dot >> Lit "refundable".
(** [forfeit.*(balance|credits)|void.*(benefits|rewards)|no compensation] *)
Definition clause_7 : regex :=
  Lit "forfeit" >> any >> (Lit "balance" <|> Lit "credits")
  <|> Lit "void" >> any >> (Lit "benefits" <|> Lit "rewards")
  <|> Lit "no compensation".
(** [not liable.*(theft|breach|loss)|waiver.*liability.*negligence] *)
Definition clause_8 : regex :=
  Lit "not liable" >> any >> (Lit "theft" <|> Lit "breach" <|> Lit "loss")
  <|> Lit "waiver" >> any >> Lit "liability" >> any >> Lit "negligence".
(** [indemnif.*(our negligence|our errors)|hold harmless.*negligence] *)
Definition clause_9 : regex :=
  Lit "indemnif" >> any >> (Lit "our negligence" <|> Lit "our errors")
  <|> Lit "hold harmless" >> any >> Lit "negligence".
(** [private arbitration|no.*(jury|court|appeal)] *)
Definition clause_10 : regex :=
  Lit "private arbitration"
  <|> Lit "no" >> any >> (Lit "jury" <|> Lit "court" <|> Lit "appeal").
(** [intellectual property.*become.*ours|assign.*all rights] *)
Definition clause_11 : regex :=
  Lit "intellectual property" >> any >> Lit "become" >> any >> Lit "ours"
  <|> Lit "assign" >> any >> Lit "all rights".
(** [silence.*consent|deemed.*acceptance|failure.*object.*consent] *)
Definition clause_12 : regex :=
  Lit "silence" >> any >> Lit "consent"
  <|> Lit "deemed" >> any >> Lit "acceptance"
  <|> Lit "failure" >> any >> Lit "object" >> any >> Lit "consent".
(** [survive.*termination|survive.*death|perpetual.*obligation] *)
Definition clause_13 : regex :=
  Lit "survive" >> any >> Lit "termination"
  <|> Lit "survive" >> any >> Lit "death"
  <|> Lit "perpetual" >> any >> Lit "obligation".
(** [consent.*future.*terms|terms not yet written] *)
Definition clause_14 : regex :=
  Lit "consent" >> any >> Lit "future" >> any >> Lit "terms"
  <|> Lit "terms not yet written".

(** [\b(urgent|asap|immediately|now|today|hurry|rush)\b] *)
Definition urgency_re : regex :=
  WordB
  >> (Lit "urgent" <|> Lit "asap" <|> Lit "immediately" <|> Lit "now"
      <|> Lit "today" <|> Lit "hurry" <|> Lit "rush")
  >> WordB.
(** [\b(click|respond|reply|act|confirm)\b] *)
Definition action_re : regex :=
  WordB
  >> (Lit "click" <|> Lit "respond" <|> Lit "reply" <|> Lit "act"
      <|> Lit "confirm")
  >> WordB.
(** [\b(expire|lose|miss out|forfeit|limited)\b] *)
Definition consequence_re : regex :=
  WordB
  >> (Lit "expire" <|> Lit "lose" <|> Lit "miss out" <|> Lit "forfeit"
      <|> Lit "limited")
  >> WordB.

Definition not_space (c : ascii) : bool := negb (is_space c).
Definition tld : regex :=
  Lit "com" <|> Lit "io" <|> Lit "ai" <|> Lit "co" <|> Lit "org"
  <|> Lit "net".

(** [https?://[^\s]+] *)
Definition website_re : regex :=
  Lit "http" >> Opt (Lit "s") >> Lit "://" >> Plus not_space.
(** [linkedin\.com] *)
Definition linkedin_re : regex := Lit "linkedin.com".
(** [@[\w]+\.(com|io|ai|co|org|net)] *)
Definition domain_email_re : regex :=
  Lit "@" >> Plus is_word >> Lit "." >> tld.
(** [\b(Inc\.?|LLC|Ltd\.?|Corp\.?|Company)\b] *)
Definition company_name_re : regex :=
  WordB
  >> (Lit "Inc" >> Opt (Lit ".") <|> Lit "LLC" <|> Lit "Ltd" >> Opt (Lit ".")
      <|> Lit "Corp" >> Opt (Lit ".") <|> Lit "Company")
  >> WordB.

(** [[\w.]+@([\w]+\.(com|io|ai|co|org|net))]; group 1 is the domain. *)
Definition corp_email_re : regex :=
  Plus (fun c => is_word c || chr "." c) >> Lit "@"
  >> Group (Plus is_word >> Lit "." >> tld).
(** [(?:at|from|of)\s+([A-Z][\w\s]+(?:Inc|LLC|Ltd|Corp|Company|Solutions|Technologies|AI|Labs))] *)
Definition company_pattern_re : regex :=
  (Lit "at" <|> Lit "from" <|> Lit "of") >> Plus is_space
  >> Group (Cls (between 65 90) >> Plus (fun c => is_word c || is_space c)
            >> (Lit "Inc" <|> Lit "LLC" <|> Lit "Ltd" <|> Lit "Corp"
                <|> Lit "Company" <|> Lit "Solutions" <|> Lit "Technologies"
                <|> Lit "AI" <|> Lit "Labs")).
(** The URL pattern of [analyze]: [https?://] then one or more characters
    other than white space and [<>{}|\^`[]] and the double quote. *)
Definition url_char (c : ascii) : bool :=
  negb (is_space c || one_of "<>{}|\^`[]" c || is_code 34 c).
Definition url_re : regex :=
  Lit "http" >> Opt (Lit "s") >> Lit "://" >> Plus url_char.

End Patterns.

Module LegalClauseRule.
Import Re Patterns.

(** [LegalClauseRule.CONCERNING_PATTERNS]: pattern, display name and
    intrinsic severity of each clause type. *)
Definition CONCERNING_PATTERNS : list (regex * string * string) :=
  [ (clause_1, "Binding Arbitration & Rights Waiver", "VERY_HIGH");
    (clause_2, "Class Action Waiver", "VERY_HIGH");
    (clause_3, "Unilateral Modification Rights", "HIGH");
    (clause_4, "Data Monetization Rights", "VERY_HIGH");
    (clause_5, "Irrevocable Content License", "HIGH");
    (clause_6, "No-Refund Policy", "MEDIUM");
    (clause_7, "Asset Forfeiture on Termination", "HIGH");
    (clause_8, "Broad Liability Waiver", "VERY_HIGH");
    (clause_9, "Indemnification of Negligence", "VERY_HIGH");
    (clause_10, "Private Arbitration Mandate", "HIGH");
    (clause_11, "IP Assignment Clause", "HIGH");
    (clause_12, "Silence-as-Consent", "HIGH");
    (clause_13, "Perpetual Obligation", "MEDIUM");
    (clause_14, "Future Terms Consent", "VERY_HIGH") ].

(** The signal appended by the body of the loop of [evaluate_all]. *)
Definition clause_signal (name severity : string) : Signal :=
  let level := if mem severity ["VERY_HIGH"; "HIGH"] then RED else YELLOW in
  let confidence :=
    if severity =? "VERY_HIGH" then 0.95%Q
    else if severity =? "HIGH" then 0.85%Q else 0.75%Q in
  mkSignal name level
    (severity ++ " RISK: " ++ name
     ++ " - This provision significantly affects your rights and recourse options.")
    confidence.

(** [LegalClauseRule.evaluate_all] *)
Definition evaluate_all (content context : string) : list Signal :=
  if negb (context =? "legal_agreement") then []
  else
    let lower := lower content in
    fold_left
      (fun signals '(pattern, name, severity) =>
         if found pattern lower
         then signals ++ [clause_signal name severity]
         else signals)
      CONCERNING_PATTERNS [].

End LegalClauseRule.

Module HighPressurePatternRule.
Import Re Patterns.

(** [HighPressurePatternRule.evaluate] *)
Definition evaluate (content content_type context : string)
    : option Signal :=
  let lower := lower content in
  let urgency := found urgency_re lower in
  let action_demand := found action_re lower in
  let consequence := found consequence_re lower in
  if urgency && action_demand && consequence then
    Some (mkSignal "Predatory Pressure Pattern" RED
      "URGENT + ACTION DEMAND + CONSEQUENCE = classic manipulation tactic designed to bypass critical thinking."
      0.95%Q)
  else if urgency && action_demand then
    Some (mkSignal "High-Pressure Tactics" RED
      "Urgency combined with action demands is a common social engineering pattern."
      0.85%Q)
  else None.

End HighPressurePatternRule.

Module VerifiabilityRule.
Import Re Patterns.

(** [sum(bs)] for a list of [bool]. *)
Definition sum_bools (bs : list bool) : Z :=
  fold_left (fun acc b => acc + Z.b2z b)%Z bs 0%Z.

Definition business_contexts : list string :=
  ["partnership_offer"; "client_inquiry"; "vendor_proposal"].

(** [VerifiabilityRule.evaluate] *)
Definition evaluate (content content_type context : string)
    : option Signal :=
  if negb (mem context business_contexts) then None
  else
    let has_website := found website_re content in
    let has_linkedin := found linkedin_re (lower content) in
    let has_domain_email := found domain_email_re content in
    let has_company_name := found company_name_re content in
    let verifiable_count :=
      sum_bools [has_website; has_linkedin; has_domain_email;
                 has_company_name] in
    if (verifiable_count =? 0)%Z then
      Some (mkSignal "Zero Verifiable Identity" RED
        "No company website, LinkedIn, corporate email, or legal name provided. Cannot verify legitimacy."
        0.9%Q)
    else if (verifiable_count <=? 2)%Z then
      Some (mkSignal "Limited Verifiability" YELLOW
        ("Only " ++ str_of_int verifiable_count
         ++ "/4 verification elements present. Request additional proof of legitimacy.")
        0.75%Q)
    else None.

End VerifiabilityRule.

(* ================================================================== *)
(** ** The world outside the process *)

Record Response : Type := mkResponse {
  status_code : Z;
  text : string;
  (** [response.json()]; [None] when the body does not decode. *)
  json_body : option json
}.

(** What awaiting a request gives: the client raises (time-out, transport
    error) with a message, or a response arrives. *)
Inductive outcome : Type :=
| Raised (msg : string)
| Returned (r : Response).

Record World : Type := mkWorld {
  (** [os.getenv("GEMINI_API_KEY")] *)
  GEMINI_API_KEY : option string;
  (** [os.getenv] of [SCRAPE_DO_API_KEY], the empty string by default *)
  SCRAPE_DO_API_KEY : string;
  (** [client.get(url)] *)
  http_get : string -> outcome;
  (** [client.post(url, json=payload)] *)
  http_post : string -> json -> outcome
}.

(** [d.get(key)] *)
Fixpoint dict_get (key : string) (d : Dict) : option json :=
  match d with
  | [] => None
  | (k, v) :: d' => if k =? key then Some v else dict_get key d'
  end.

(** Truthiness of a value, [None] standing for itself. *)
Definition truthy_json (v : option json) : bool :=
  match v with
  | None | Some JNull => false
  | Some (JBool b) => b
  | Some (JNum q) => negb (Qeq_bool q 0)
  | Some (JStr s) => truthy s
  | Some (JArr xs) => match xs with [] => false | _ => true end
  | Some (JObj kvs) => match kvs with [] => false | _ => true end
  end.

(* ================================================================== *)
(** ** Website scraper *)

Module WebsiteScraper.
Import Re.
Local Open Scope re_scope.

Definition quote (c : ascii) : bool := is_code 34 c || is_code 39 c.
Definition not_quote (c : ascii) : bool := negb (quote c).
Definition not_gt (c : ascii) : bool := negb (chr ">" c).
Definition not_lt (c : ascii) : bool := negb (chr "<" c).
Definition not_slash (c : ascii) : bool := negb (chr "/" c).

(** [<title[^>]*>([^<]+)</title>], [re.IGNORECASE] *)
Definition title_re : regex :=
  LitI "<title" >> Star not_gt >> Lit ">" >> Group (Plus not_lt)
  >> LitI "</title>".
(** [<meta[^>]*name=[QUOTE]description[QUOTE][^>]*content=[QUOTE]([^QUOTE]+)],
    [re.IGNORECASE], [QUOTE] being either quotation mark *)
Definition description_re : regex :=
  LitI "<meta" >> Star not_gt >> LitI "name=" >> Cls quote
  >> LitI "description" >> Cls quote >> Star not_gt >> LitI "content="
  >> Cls quote >> Group (Plus not_quote).
(** [(contact|email|phone|address)], [re.IGNORECASE] *)
Definition contact_re : regex :=
  LitI "contact" <|> LitI "email" <|> LitI "phone" <|> LitI "address".
(** [href=[QUOTE][^QUOTE]*about], [re.IGNORECASE] *)
Definition about_re : regex :=
  LitI "href=" >> Cls quote >> Star not_quote >> LitI "about".
(** [https?://([^/]+)] *)
Definition domain_re : regex :=
  Lit "http" >> Opt (Lit "s") >> Lit "://" >> Group (Plus not_slash).

Definition social_patterns : list string :=
  ["facebook.com"; "twitter.com"; "linkedin.com"; "instagram.com"].

(** [m.group(1)] of a match whose group 1 took part. *)
Definition group_1 (m : match_obj) : string :=
  match grp1 m with Some g => g | None => EmptyString end.

Definition _extract_domain (url : string) : string :=
  match search domain_re url with
  | Some m => group_1 m
  | None => url
  end.

Definition failure (error : string) : Dict :=
  [("success", JBool false); ("error", JStr error)].

(** [WebsiteScraper.scrape]; every exception of the body is caught and
    reported as a failure carrying its message. *)
Definition scrape (w : World) (url : string) : Dict :=
  if negb (truthy (SCRAPE_DO_API_KEY w))
  then failure "SCRAPE_DO_API_KEY not set"
  else
    let scrape_url :=
      ("http://api.scrape.do?token=" ++ SCRAPE_DO_API_KEY w ++ "&url=" ++ url)
        %string in
    match http_get w scrape_url with
    | Raised e => failure e
    | Returned response =>
        if negb (status_code response =? 200)%Z
        then failure ("Scrape.do error: HTTP "
                      ++ str_of_int (status_code response))%string
        else
          let html := text response in
          let title :=
            match search title_re html with
            | Some title_match => strip (group_1 title_match)
            | None => "Unknown"
            end in
          let description :=
            match search description_re html with
            | Some desc_match => group_1 desc_match
            | None => EmptyString
            end in
          let has_contact := found contact_re html in
          let has_about := found about_re html in
          let social_links :=
            filter (fun s => contains s (lower html)) social_patterns in
          [ ("success", JBool true);
            ("title", JStr title);
            ("description", JStr description);
            ("has_contact", JBool has_contact);
            ("has_about", JBool has_about);
            ("social_links", JArr (map JStr social_links));
            ("domain", JStr (_extract_domain url)) ]
    end.

End WebsiteScraper.

(* ================================================================== *)
(** ** Business assessment *)

Import Re.

(** [x if x else [placeholder]] *)
Definition or_placeholder (xs : list string) (placeholder : string)
    : list string :=
  match xs with [] => [placeholder] | _ => xs end.

Definition assess_business_priority (signals : list Signal)
    (context severity_level : string) : BusinessPriorityAssessment :=
  let risk_count := count_if is_red signals in
  let green_count := count_if is_green signals in
  let '(strategic, attention, risk_reward, time_rec) :=
    if mem severity_level ["critical"; "high"] then
      ("low", "ignore", "unfavorable",
       "Deprioritizeâ€”high risk indicators present")
    else if (green_count >=? 2)%Z && (risk_count =? 0)%Z then
      ("high", "engage", "favorable", "Warrants prompt attention")
    else if (green_count >=? 1)%Z && (risk_count <=? 1)%Z then
      ("medium", "monitor", "neutral",
       "Evaluate alongside other opportunities")
    else
      ("low", "ignore", "unfavorable",
       "Does not merit significant time investment") in
  let '(confidence_factors, concerns) :=
    fold_left
      (fun '(confidence_factors, concerns) sig =>
         match level sig with
         | GREEN => (confidence_factors ++ [name sig], concerns)
         | RED | YELLOW => (confidence_factors, concerns ++ [name sig])
         end)
      signals ([], []) in
  mkBusinessPriority strategic attention risk_reward time_rec
    (or_placeholder confidence_factors "Limited positive indicators")
    (or_placeholder concerns "No specific concerns flagged").

Definition personal_providers : list string :=
  ["gmail.com"; "yahoo.com"; "hotmail.com"; "outlook.com"].

Definition assess_company (content : string) (scraped : option Dict)
    : CompanyAssessment :=
  let '(flags, confidence_factors, track_record) :=
    match search Patterns.corp_email_re content with
    | Some corp_email =>
        let domain := WebsiteScraper.group_1 corp_email in
        if negb (mem domain personal_providers)
        then ([], ["Corporate email domain"], "claimed")
        else (["Using personal email provider"], [], "unverified")
    | None => (["No corporate email provided"], [], "unknown")
    end in
  let company_patterns := findall Patterns.company_pattern_re content in
  let '(flags, confidence_factors) :=
    match company_patterns with
    | _ :: _ => (flags, confidence_factors ++ ["Company name provided"])
    | [] => (flags ++ ["Limited public visibility"], confidence_factors)
    end in
  let '(visibility, flags, confidence_factors) :=
    match scraped with
    | Some d =>
        if truthy_json (Some (JObj d)) && truthy_json (dict_get "success" d)
        then
          if truthy_json (dict_get "social_links" d)
          then ("moderate", flags,
                confidence_factors ++ ["Active social media presence"])
          else ("limited", flags ++ ["Limited online presence"],
                confidence_factors)
        else ("unknown", flags, confidence_factors)
    | None => ("unknown", flags, confidence_factors)
    end in
  mkCompanyAssessment visibility track_record flags confidence_factors.

(* ================================================================== *)
(** ** Narrative generator ([ai_generator.py]) *)

Module ai_generator.

Record Signal : Type := mkSignal {
  id : string;
  category : string;
  title : string;
  explanation : string;
  details : option string;
  ruleId : string;
  severity : option string;
  domain : option string
}.

Record AIInput : Type := mkAIInput {
  inputType : string;
  originalInput : string;
  detectedContext : string;
  signals : list Signal;
  businessPriority : option Dict;
  companyAssessment : option Dict;
  concernCount : Z;
  severityLevel : string
}.

Record AIOutput : Type := mkAIOutput {
  summary : string;
  whatYouMightMiss : string;
  actions : list string
}.

End ai_generator.

Module TrustLensAI.
Import ai_generator.

Definition API_URL : string :=
  "https://generativelanguage.googleapis.com/v1beta/models/gemini-1.5-flash:generateContent".

(** One entry of [SEVERITY_CONFIG]. *)
Record tier_config : Type := mkTier {
  label : string;
  color : string;
  threshold : Z
}.

(** [TrustLensAI.SEVERITY_CONFIG], in the order of the dictionary. *)
Definition SEVERITY_CONFIG : list (string * tier_config) :=
  [ ("critical", mkTier "CRITICAL RISK" "🔴" 6%Z);
    ("high", mkTier "HIGH CONCERN" "🟠" 3%Z);
    ("moderate", mkTier "MODERATE RISK" "🟡" 1%Z);
    ("low", mkTier "LOW RISK" "🟢" 0%Z) ].

(** [TrustLensAI.IMPACT_TITLES] *)
Definition IMPACT_TITLES : list (string * list (string * string)) :=
  [ ("legal",
     [ ("critical", "Systemic Rights Erosion Structure");
       ("high", "Rights-Stripping Clause Cluster");
       ("moderate", "Concerning Legal Provisions");
       ("low", "Standard Legal Language") ]);
    ("business",
     [ ("critical", "Critical Partnership Risk");
       ("high", "High-Risk Engagement Structure");
       ("moderate", "Mixed-Signal Opportunity");
       ("low", "Credible Business Approach") ]);
    ("consumer",
     [ ("critical", "Predatory Pattern System");
       ("high", "High-Pressure Manipulation");
       ("moderate", "Suspicious Indicators Present");
       ("low", "No Significant Concerns") ]) ].

Definition _determine_severity (input_data : AIInput) : string :=
  let count := concernCount input_data in
  if (count >=? 6)%Z then "critical"
  else if (count >=? 3)%Z then "high"
  else if (count >=? 1)%Z then "moderate"
  else "low".

Definition is_risk (s : Signal) : bool := category s =? "risk".

Definition _build_compound_explanation (signals : list Signal)
    (context severity : string) : string :=
  if severity =? "critical" then
    "The combined presence of multiple high-impact clauses creates a systemic power imbalance. Individually, each provision might appear in standard contracts, but together they form a structure that: (1) eliminates your ability to dispute or seek remedy, (2) grants the other party unilateral control over terms and access, and (3) extends obligations beyond reasonable limits. This is not a balanced agreement."
  else if severity =? "high" then
    "Several concerning provisions work together to shift significant control away from you. While not every clause is problematic on its own, their combination creates substantial risk exposure—particularly around dispute resolution, data rights, and unilateral changes. The structure favors the drafting party heavily."
  else if severity =? "moderate" then
    let risk_signals := filter is_risk signals in
    match risk_signals with
    | _ :: _ =>
        let n := Z.of_nat (List.length risk_signals) in
        "Detected " ++ str_of_int n ++ " area"
        ++ (if (n >? 1)%Z then "s" else EmptyString) ++ " of concern: "
        ++ join ", " (map title (firstn 2 risk_signals))
        ++ ". These provisions warrant careful review before proceeding."
    | [] =>
        "Some indicators suggest caution is warranted. Review the specific signals detected."
    end
  else
    "No significant risk patterns detected. Standard verification practices apply.".

Definition _build_what_you_might_miss (signals : list Signal)
    (context severity : string) : string :=
  if context =? "legal_agreement" then
    if mem severity ["critical"; "high"] then
      "What you might miss: These clauses don't just limit your current rights—they systematically remove your ability to challenge problems later. The binding arbitration clause means you cannot sue in court, even for serious harm. The unilateral change provision allows them to alter terms after you've committed, leaving you with no recourse. The data license grant is perpetual and irrevocable, extending beyond account closure. Combined, these create a legal structure where you bear all risk while they retain all control."
    else
      "No major red flags detected, but always verify: (1) Can you exit easily? (2) What happens to your data? (3) Can terms change without notice? Standard agreements should allow dispute resolution in court and limit data use to service provision."
  else if mem context ["partnership_offer"; "vendor_proposal";
                       "client_inquiry"] then
    if mem severity ["critical"; "high"] then
      "What you might miss: The urgency pressure combined with limited verifiability is a classic pattern. Legitimate opportunities don't require immediate decisions without due diligence. The lack of corporate infrastructure (no verifiable domain, no LinkedIn presence) means you're taking on partnership risk without validation. If this were credible, they would provide references and allow time for verification."
    else
      "Key verification steps: Confirm company registration, check for active social presence, request references from past partners. Credible businesses provide this information proactively."
  else
    if mem severity ["critical"; "high"] then
      "What you might miss: Urgency + personal info requests + unknown sender = classic social engineering. The pressure to act fast is specifically designed to bypass your critical thinking. Legitimate entities don't operate this way—they provide time, verifiable contact information, and don't demand sensitive data via unsolicited messages."
    else
      "Verify sender identity through official channels (not reply links). Check for pressure tactics. When in doubt, pause and verify independently.".

Definition _build_actions (context severity : string)
    (signals : list Signal) : list string :=
  if context =? "legal_agreement" then
    if severity =? "critical" then
      [ "🛑 DO NOT ACCEPT without attorney review—this agreement contains systemic risk";
          "📋 Specifically challenge: binding arbitration clause, unilateral change rights, broad data license";
          "⚖️ Compare against industry-standard terms (e.g., major platform ToS)";
          "✋ Consider opting out—few services are worth surrendering these rights";
          "📄 Request modified terms removing arbitration and limiting data use" ]
    else if severity =? "high" then
      [ "⚠️ Do not accept without understanding each flagged clause";
          "📋 Mark specific sections for legal review (arbitration, liability, data rights)";
          "🔍 Compare data handling and dispute terms against 2-3 similar services";
          "📧 Request clarification on: unilateral changes, termination, data retention";
          "✋ If protections are absent, consider alternative providers" ]
    else
      [ "✓ Review standard sections (liability, data use, termination)";
          "📋 Ensure you can delete account and data";
          "🔍 Verify dispute resolution is in court, not just arbitration" ]
  else if mem context ["partnership_offer"; "vendor_proposal"] then
    if mem severity ["critical"; "high"] then
      [ "🛑 Do not proceed without verification—high-pressure + low-verifiability is a warning pattern";
          "📋 Request: Company registration, LinkedIn profiles, 2-3 references";
          "⏰ Insist on time for due diligence—legitimate partners allow this";
          "🔍 Search company name + 'scam' or 'complaint'";
          "✋ If they resist verification, disengage immediately" ]
    else
      [ "📋 Request company website and LinkedIn verification";
          "📞 Schedule call after confirming company exists";
          "🔍 Check references before sharing proprietary information" ]
  else
    if mem severity ["critical"; "high"] then
      [ "🛑 DO NOT CLICK links or respond—this shows classic manipulation patterns";
          "🗑️ Delete message and block sender";
          "🔍 Verify independently through official website (not reply links)";
          "💡 Report to platform if applicable";
          "⚠️ If you already clicked, scan device and change passwords" ]
    else
      [ "⚠️ Verify sender through official channels";
          "⏰ Take time—ignore urgency pressure";
          "🔍 Search message content for known scams" ].

(** [x in result] for the key the reply is probed with; [None] when the
    operand type does not support [in]. *)
Definition has_key (key : string) (result : json) : option bool :=
  match result with
  | JObj kvs =>
      Some (match dict_get key kvs with Some _ => true | None => false end)
  | JArr xs =>
      Some (existsb
              (fun x => match x with JStr s => s =? key | _ => false end) xs)
  | JStr s => Some (contains key s)
  | JNull | JBool _ | JNum _ => None
  end.

(** [v[key]] for a string key; [None] when it raises. *)
Definition item (key : string) (v : json) : option json :=
  match v with
  | JObj kvs => dict_get key kvs
  | _ => None
  end.

(** [v[0]]; [None] when it raises. *)
Definition item0 (v : json) : option json :=
  match v with
  | JArr (x :: _) => Some x
  | JStr (String c _) => Some (JStr (String c EmptyString))
  | _ => None
  end.

(** [v.strip()]; [None] when it raises. *)
Definition strip_of (v : json) : option string :=
  match v with
  | JStr s => Some (strip s)
  | _ => None
  end.

Definition bind {A B : Type} (x : option A) (f : A -> option B) : option B :=
  match x with Some a => f a | None => None end.

(** [result['candidates'][0]['content']['parts'][0]['text'].strip()] *)
Definition candidate_text (result : json) : option string :=
  bind (item "candidates" result) (fun a =>
  bind (item0 a) (fun b =>
  bind (item "content" b) (fun c =>
  bind (item "parts" c) (fun d =>
  bind (item0 d) (fun e =>
  bind (item "text" e) strip_of))))).

Definition prompt_of (severity : string) (concern_titles : list string)
    (base_summary : string) : string :=
  "You are a legal risk analyst. Rewrite this summary to be clearer and more impactful.

SEVERITY: " ++ upper severity
  ++ "
CONCERNS: " ++ join ", " (firstn 4 concern_titles)
  ++ "

CURRENT SUMMARY:
" ++ base_summary
  ++ "

REQUIREMENTS:
1. Be direct about the severity—don't soften it
2. Explain how clauses work together to create risk
3. Use clear, serious language
4. Keep it to 2-3 sentences
5. Focus on user protection, not neutrality

IMPROVED SUMMARY:".

Definition payload_of (prompt : string) : json :=
  JObj [ ("contents",
          JArr [JObj [("parts", JArr [JObj [("text", JStr prompt)]])]]);
         ("generationConfig",
          JObj [("temperature", JNum 0.2%Q);
                ("maxOutputTokens", JNum 150%Q)]) ].

(** [str(self.api_key)] inside the request URL. *)
Definition key_text (w : World) : string :=
  match GEMINI_API_KEY w with Some k => k | None => "None" end.

(** [TrustLensAI._enhance_with_gemini]; whatever the request or the
    decoding of the reply raises is swallowed by the bare [except]. *)
Definition _enhance_with_gemini (w : World) (input_data : AIInput)
    (base_summary severity : string) : option string :=
  let concern_titles := map title (filter is_risk (signals input_data)) in
  let prompt := prompt_of severity concern_titles base_summary in
  match http_post w (API_URL ++ "?key=" ++ key_text w) (payload_of prompt) with
  | Raised _ => None
  | Returned response =>
      if (status_code response =? 200)%Z then
        match json_body response with
        | None => None
        | Some result =>
            match has_key "candidates" result with
            | Some true => candidate_text result
            | Some false => None
            | None => None
            end
        end
      else None
  end.

(** Truthiness of [self.api_key]. *)
Definition api_key_set (w : World) : bool :=
  match GEMINI_API_KEY w with Some k => truthy k | None => false end.

(** [TrustLensAI.generate_summary] *)
Definition generate_summary (w : World) (input_data : AIInput) : AIOutput :=
  let severity := _determine_severity input_data in
  let signals := signals input_data in
  let context := detectedContext input_data in
  let summary := _build_compound_explanation signals context severity in
  let what_you_might_miss :=
    _build_what_you_might_miss signals context severity in
  let actions := _build_actions context severity signals in
  let summary :=
    if api_key_set w && mem severity ["critical"; "high"] then
      match _enhance_with_gemini w input_data summary severity with
      | Some enhanced => if truthy enhanced then enhanced else summary
      | None => summary
      end
    else summary in
  mkAIOutput summary what_you_might_miss actions.

End TrustLensAI.

(* ================================================================== *)
(** ** Engine *)

Module TrustLensEngine.

(** [self.rules] *)
Definition rules : list TrustRule :=
  [ mkRule LegalClause "Legal Risk Analysis" 1.0%Q;
    mkRule HighPressurePattern "Manipulation Pattern Detection" 1.0%Q;
    mkRule Verifiability "Identity Verification" 1.0%Q ].

(** [signals.append(signal)] guarded by [if signal]. *)
Definition append_if (signals : list Signal) (signal : option Signal)
    : list Signal :=
  match signal with
  | Some s => signals ++ [s]
  | None => signals
  end.

(** One turn of the loop over [self.rules]: the legal rule extends the list
    by all its signals, any other rule appends the signal it returns. *)
Definition run_rule (content content_type context : string)
    (signals : list Signal) (rule : TrustRule) : list Signal :=
  match rule_class rule with
  | LegalClause => signals ++ LegalClauseRule.evaluate_all content context
  | HighPressurePattern =>
      append_if signals
        (HighPressurePatternRule.evaluate content content_type context)
  | Verifiability =>
      append_if signals
        (VerifiabilityRule.evaluate content content_type context)
  end.

Definition run_rules (content content_type context : string) : list Signal :=
  fold_left (run_rule content content_type context) rules [].

(** The threshold cascade of [analyze]:
    [(severity_level, overall_level, score)] from the concern count. *)
Definition severity_of (concern_count : Z) : string * string * Z :=
  if (concern_count >=? 6)%Z then
    ("critical", "ðŸ”´ CRITICAL RISK", 15%Z)
  else if (concern_count >=? 3)%Z then
    ("high", "ðŸŸ  HIGH CONCERN", 35%Z)
  else if (concern_count >=? 1)%Z then
    ("moderate", "ðŸŸ¡ MODERATE RISK", 55%Z)
  else
    ("low", "ðŸŸ¢ LOW RISK", 80%Z).

(** [enumerate(xs)] *)
Fixpoint enumerate_from {A : Type} (i : nat) (xs : list A)
    : list (nat * A) :=
  match xs with
  | [] => []
  | x :: xs' => (i, x) :: enumerate_from (S i) xs'
  end.

(** [type(self.rules[i % len(self.rules)]).__name__]; the index is below
    the length of the list. *)
Definition rule_id (i : nat) : string :=
  match nth_error rules (i mod List.length rules) with
  | Some r => class_name r
  | None => EmptyString
  end.

Definition ai_signal (i : nat) (s : Signal) : ai_generator.Signal :=
  ai_generator.mkSignal
    ("sig-" ++ str_of_int (Z.of_nat i))
    (match level s with
     | RED => "risk" | YELLOW => "uncertainty" | GREEN => "green" end)
    (name s)
    (message s)
    None
    (rule_id i)
    (Some (match level s with RED => "high" | _ => "medium" end))
    None.

Definition ai_input_of (content content_type context : string)
    (signals : list Signal) (concern_count : Z) (severity_level : string)
    : ai_generator.AIInput :=
  ai_generator.mkAIInput content_type content context
    (map (fun '(i, s) => ai_signal i s) (enumerate_from 0 signals))
    None None concern_count severity_level.

(** [TrustLensEngine.analyze] (the debugging [print] calls write to the
    standard output and are left out). *)
Definition analyze (w : World) (content content_type : string)
    : TrustAnalysis :=
  let context := detect_context content content_type in
  let urls := Re.findall Patterns.url_re content in
  let scraped :=
    match urls with
    | url :: _ => Some (WebsiteScraper.scrape w (Re.group0 url))
    | [] => None
    end in
  let signals := run_rules content content_type context in
  let concern_count := count_if is_red signals in
  let '(severity_level, overall_level, score) := severity_of concern_count in
  let ai_input :=
    ai_input_of content content_type context signals concern_count
                severity_level in
  let ai_result := TrustLensAI.generate_summary w ai_input in
  let '(business_priority, company_assessment) :=
    if mem context ["partnership_offer"; "client_inquiry"; "vendor_proposal"]
    then (Some (assess_business_priority signals context severity_level),
          Some (assess_company content scraped))
    else (None, None) in
  mkTrustAnalysis score overall_level signals []
    (ai_generator.summary ai_result) (ai_generator.whatYouMightMiss ai_result)
    (ai_generator.actions ai_result)
    business_priority company_assessment context concern_count
    severity_level.

(** Two parts of [analyze] by name, for the statements below. *)

(** What [analyze] scrapes: the first URL of the content, when it has one. *)
Definition scraped_of (w : World) (content : string) : option Dict :=
  match Re.findall Patterns.url_re content with
  | url :: _ => Some (WebsiteScraper.scrape w (Re.group0 url))
  | [] => None
  end.

(** The narrative input [analyze] hands to the generator. *)
Definition narrative_input (content content_type : string)
    : ai_generator.AIInput :=
  let context := detect_context content content_type in
  let sigs := run_rules content content_type context in
  let n := count_if is_red sigs in
  ai_input_of content content_type context sigs n (fst (fst (severity_of n))).

End TrustLensEngine.

(* ================================================================== *)
(** ** API endpoints *)

Module Api.

Record AnalysisRequest : Type := mkAnalysisRequest {
  content : string;
  content_type : string
}.

Record AIGenerateRequest : Type := mkAIGenerateRequest {
  inputType : string;
  originalInput : string;
  detectedContext : string;
  signals : list Dict;
  businessPriority : option Dict;
  companyAssessment : option Dict
}.

Record AIGenerateResponse : Type := mkAIGenerateResponse {
  summary : string;
  modelUsed : string;
  fallback : bool
}.

(** [POST /analyze] *)
Definition analyze_content (w : World) (request : AnalysisRequest)
    : TrustAnalysis :=
  TrustLensEngine.analyze w (content request) (content_type request).

(** [d.get(key, default)] *)
Definition get_or (key : string) (default : json) (d : Dict) : json :=
  match dict_get key d with Some v => v | None => default end.

Section Validation.

(** Validation of a value against a [str] field of a pydantic model: the
    string the field receives, or [None] when the model constructor raises
    [ValidationError].  Which values besides strings are accepted depends on
    the installed pydantic, which the repository does not pin. *)
Variable str_field : json -> option string.

(** The same for an [Optional[str]] field. *)
Definition opt_str_field (v : json) : option (option string) :=
  match v with
  | JNull => Some None
  | _ => option_map Some (str_field v)
  end.

(** [AISignal(id=sig.get('id', 'unknown'), ...)]; [None] when the
    constructor raises. *)
Definition convert_signal (sig : Dict) : option ai_generator.Signal :=
  match str_field (get_or "id" (JStr "unknown") sig),
        str_field (get_or "category" (JStr "uncertainty") sig),
        str_field (get_or "title" (JStr "Unknown") sig),
        str_field (get_or "explanation" (JStr EmptyString) sig),
        str_field (get_or "ruleId" (JStr "unknown") sig),
        opt_str_field (get_or "severity" (JStr "medium") sig) with
  | Some id, Some category, Some title, Some explanation, Some ruleId,
    Some severity =>
      Some (ai_generator.mkSignal id category title explanation None ruleId
              severity None)
  | _, _, _, _, _, _ => None
  end.

(** The loop filling [ai_signals]; it stops at the first signal whose
    conversion raises. *)
Fixpoint convert_signals (sigs : list Dict)
    : option (list ai_generator.Signal) :=
  match sigs with
  | [] => Some []
  | sig :: sigs' =>
      match convert_signal sig with
      | None => None
      | Some s => option_map (cons s) (convert_signals sigs')
      end
  end.

(** [s.get('category') == 'risk'] *)
Definition category_is_risk (s : Dict) : bool :=
  match dict_get "category" s with
  | Some (JStr c) => c =? "risk"
  | _ => false
  end.

(** The body of the [try] of the endpoint; [None] when it raises. *)
Definition generate_summary_try (w : World) (request : AIGenerateRequest)
    : option AIGenerateResponse :=
  match convert_signals (signals request) with
  | None => None
  | Some ai_signals =>
      let ai_input :=
        ai_generator.mkAIInput (inputType request) (originalInput request)
          (detectedContext request) ai_signals None None
          (Z.of_nat (List.length (filter category_is_risk (signals request))))
          "low" in
      let result := TrustLensAI.generate_summary w ai_input in
      Some (mkAIGenerateResponse (ai_generator.summary result) "trustlens-v3" false)
  end.

(** [POST /api/generate-summary] *)
Definition generate_summary (w : World) (request : AIGenerateRequest)
    : AIGenerateResponse :=
  match generate_summary_try w request with
  | Some response => response
  | None =>
      mkAIGenerateResponse "Analysis complete. Review the detected signals."
        "fallback" true
  end.

End Validation.

(** [GET /] *)
Definition root : Dict :=
  [ ("message", JStr "Trust Lens API");
    ("version", JStr "3.0.0");
    ("features",
     JArr [JStr "severity-first"; JStr "compound-risk";
           JStr "action-oriented"]) ].

(** [GET /health] *)
Definition health : Dict :=
  [ ("status", JStr "healthy");
    ("rules_loaded",
     JNum (inject_Z (Z.of_nat (List.length TrustLensEngine.rules)))) ].

End Api.

(* ================================================================== *)
(** ** Vocabulary of the statements *)

Module Spec.

(** The five context tags. *)
Definition contexts : list string :=
  ["legal_agreement"; "partnership_offer"; "client_inquiry";
   "vendor_proposal"; "consumer_message"].

(** Every phrase [detect_context] looks for. *)
Definition context_keywords : list string :=
  legal_markers ++ partnership_words ++ client_words ++ vendor_words
  ++ employment_words.

(** The content holds the phrase, letter case apart: the test the detector
    makes on the lower-cased text. *)
Definition mentions (content phrase : string) : Prop :=
  contains phrase (lower content) = true.

(** The tests of the branches of [detect_context], in their order. *)
Definition legal_test (content : string) : bool :=
  (count_if (fun marker => contains marker (lower content)) legal_markers
   >=? 2)%Z
  || contains "terms of service" (lower content)
  || contains "user agreement" (lower content).
Definition partnership_test (content : string) : bool :=
  any_in partnership_words (lower content).
Definition client_test (content : string) : bool :=
  any_in client_words (lower content).
Definition vendor_test (content : string) : bool :=
  any_in vendor_words (lower content)
  && negb (contains "contract" (lower content)).
Definition employment_test (content : string) : bool :=
  any_in employment_words (lower content).

(** Number of red-level signals of a signal list. *)
Definition red_count (signals : list Signal) : Z :=
  Z.of_nat (List.length (filter is_red signals)).

(** A clause type matches a text. *)
Definition clause_matches (text : string) (t : Re.regex * string * string)
    : bool :=
  let '(pattern, _, _) := t in Re.found pattern text.

(** The signal of a clause type. *)
Definition signal_of_clause (t : Re.regex * string * string) : Signal :=
  let '(_, name, severity) := t in LegalClauseRule.clause_signal name severity.

(** The four verifiability cues of a content. *)
Definition cues (content : string) : list bool :=
  [ Re.found Patterns.website_re content;
    Re.found Patterns.linkedin_re (lower content);
    Re.found Patterns.domain_email_re content;
    Re.found Patterns.company_name_re content ].

(** How many of them are present. *)
Definition cue_count (content : string) : Z :=
  Z.of_nat (List.length (filter (fun b : bool => b) (cues content))).

(** The reply has the shape the enhancement expects and carries [text]:
    an object whose [candidates] is an array starting with an object whose
    [content] is an object whose [parts] is an array starting with an object
    whose [text] is a string. *)
Definition reply_shape (result : json) (text : string) : Prop :=
  exists top cands cand content parts part,
    result = JObj top
    /\ dict_get "candidates" top = Some (JArr (JObj cand :: cands))
    /\ dict_get "content" cand = Some (JObj content)
    /\ dict_get "parts" content = Some (JArr (JObj part :: parts))
    /\ dict_get "text" part = Some (JStr text).

(** The template summary of an input. *)
Definition template_summary (input_data : ai_generator.AIInput) : string :=
  TrustLensAI._build_compound_explanation (ai_generator.signals input_data)
    (ai_generator.detectedContext input_data)
    (TrustLensAI._determine_severity input_data).

(** The reply to the request [generate_summary] makes for an input. *)
Definition enhancement_reply (w : World) (input_data : ai_generator.AIInput)
    : outcome :=
  http_post w (TrustLensAI.API_URL ++ "?key=" ++ TrustLensAI.key_text w)
    (TrustLensAI.payload_of
       (TrustLensAI.prompt_of (TrustLensAI._determine_severity input_data)
          (map ai_generator.title
             (filter TrustLensAI.is_risk (ai_generator.signals input_data)))
          (template_summary input_data))).

(** The enhancement call fails: the client raises, the status is not 200,
    the body does not decode, or the decoded body lacks the shape. *)
Definition enhancement_failed (w : World) (input_data : ai_generator.AIInput)
    : Prop :=
  match enhancement_reply w input_data with
  | Raised _ => True
  | Returned response =>
      status_code response <> 200%Z
      \/ json_body response = None
      \/ exists result,
           json_body response = Some result
           /\ forall text, ~ reply_shape result text
  end.

(** The fixed response of the compatibility endpoint. *)
Definition fallback_response : Api.AIGenerateResponse :=
  Api.mkAIGenerateResponse "Analysis complete. Review the detected signals."
    "fallback" true.

(** Worlds and inputs the statements are tried on. *)

(** No key configured, no network. *)
Definition offline : World :=
  mkWorld None EmptyString (fun _ => Raised "offline")
    (fun _ _ => Raised "offline").

(** A configured enhancement service that always answers with [r]. *)
Definition answering (r : outcome) : World :=
  mkWorld (Some "k") EmptyString (fun _ => Raised "offline") (fun _ _ => r).

Definition reply_with (text : string) : json :=
  JObj [("candidates",
         JArr [JObj [("content",
                      JObj [("parts", JArr [JObj [("text", JStr text)]])])]])].

Definition two_clause_terms : string :=
  "Terms of Service. You irrevocably agree that we may sell your data.".

Definition six_clause_terms : string :=
  "Terms of Service. You irrevocably agree to private arbitration. We may sell your data and modify these terms without notice. You waive any class action. We are not liable for any loss. Silence is deemed acceptance.".

Definition urgent_partnership : string :=
  "Partnership opportunity: act now or lose this limited offer.".

(** An input of the critical tier: seven concerns, legal context. *)
Definition critical_input : ai_generator.AIInput :=
  ai_generator.mkAIInput "text" six_clause_terms "legal_agreement"
    [ai_generator.mkSignal "sig-0" "risk" "Class Action Waiver" EmptyString
       None
       "LegalClauseRule" (Some "high") None]
    None None 7%Z "critical".

Definition server_error : outcome :=
  Returned (mkResponse 500%Z "Internal Server Error" None).

(** A request of the compatibility endpoint with one well-formed signal,
    and one whose signal has a null title. *)
Definition good_request : Api.AIGenerateRequest :=
  Api.mkAIGenerateRequest "text" "hello" "consumer_message"
    [[("id", JStr "sig-0"); ("category", JStr "risk");
      ("title", JStr "High-Pressure Tactics")]]
    None None.

Definition null_title_request : Api.AIGenerateRequest :=
  Api.mkAIGenerateRequest "text" "hello" "consumer_message"
    [[("id", JStr "sig-0"); ("title", JNull)]]
    None None.

(** pydantic 2: a [str] field takes strings only. *)
Definition strict_str (v : json) : option string :=
  match v with JStr s => Some s | _ => None end.

End Spec.

(* ================================================================== *)
(** ** Further vocabulary *)

Module Notions.

(** The signals a rule returning an optional signal contributes. *)
Definition emitted (o : option Signal) : list Signal :=
  match o with Some s => [s] | None => [] end.

(** The level is red or yellow. *)
Definition concern (s : Signal) : Prop := level s = RED \/ level s = YELLOW.

(** The level is not green, as a test. *)
Definition not_green (s : Signal) : bool := negb (is_green s).

(** Position of a tier in the order low, moderate, high, critical. *)
Definition tier_rank (tier : string) : nat :=
  if tier =? "critical" then 3
  else if tier =? "high" then 2
  else if tier =? "moderate" then 1
  else 0.

(** The tiers. *)
Definition tiers : list string := ["critical"; "high"; "moderate"; "low"].

(** The world [w] with another scrape key and another answer to [GET]. *)
Definition with_scraper (w : World) (key : string) (get : string -> outcome)
    : World :=
  mkWorld (GEMINI_API_KEY w) key get (http_post w).

(** The world [w] with another enhancement key and another answer to
    [POST]. *)
Definition with_enhancer (w : World) (key : option string)
    (post : string -> json -> outcome) : World :=
  mkWorld key (SCRAPE_DO_API_KEY w) (http_get w) post.

(** The address [scrape] requests for a page. *)
Definition scrape_request (w : World) (url : string) : string :=
  "http://api.scrape.do?token=" ++ SCRAPE_DO_API_KEY w ++ "&url=" ++ url.

(** The keys of a successful scrape, in order. *)
Definition scrape_keys : list string :=
  ["success"; "title"; "description"; "has_contact"; "has_about";
   "social_links"; "domain"].

(** The display names of the clause table, and the names the two other
    rules give their signals. *)
Definition clause_names : list string :=
  map (fun t : Re.regex * string * string => snd (fst t))
      LegalClauseRule.CONCERNING_PATTERNS.
Definition other_names : list string :=
  ["Predatory Pressure Pattern"; "High-Pressure Tactics";
   "Zero Verifiable Identity"; "Limited Verifiability"].


(** The three summaries that do not depend on the signals. *)
Definition low_summary : string :=
  TrustLensAI._build_compound_explanation [] EmptyString "low".

(** The moderate summary over the names of the red signals. *)
Definition moderate_summary (names : list string) : string :=
  "Detected " ++ str_of_int (Z.of_nat (List.length names)) ++ " area"
  ++ (if (Z.of_nat (List.length names) >? 1)%Z then "s" else EmptyString)
  ++ " of concern: " ++ join ", " (firstn 2 names)
  ++ ". These provisions warrant careful review before proceeding.".

(** The literal every match of a pattern starts with, when the pattern
    begins with one. *)
Fixpoint leading_literal (r : Re.regex) : option string :=
  match r with
  | Re.Lit s => Some s
  | Re.Cat r1 _ => leading_literal r1
  | Re.Group r1 => leading_literal r1
  | _ => None
  end.

(** A string has no slash. *)
Definition no_slash (s : string) : Prop := contains "/" s = false.

(** The signal a dictionary without any key converts to. *)
Definition default_signal : ai_generator.Signal :=
  ai_generator.mkSignal "unknown" "uncertainty" "Unknown" EmptyString None
    "unknown" (Some "medium") None.

(** A validation that takes every string as it is. *)
Definition accepts_strings (str_field : json -> option string) : Prop :=
  forall s, str_field (JStr s) = Some s.

(** Worlds and inputs the further statements are tried on. *)

(** A scrape service that serves one page to every request. *)
Definition serving (html : string) : World :=
  mkWorld None "k" (fun _ => Returned (mkResponse 200%Z html None))
    (fun _ _ => Raised "offline").

Definition linked_page : string :=
  "<title>Acme</title> <a href='https://linkedin.com/acme'>us</a>".

Definition green (n : string) : Signal := mkSignal n GREEN EmptyString 0.9%Q.

Definition vendor_note : string :=
  "Vendor quote attached, see https://acme.io/q for pricing.".

End Notions.

(* ================================================================== *)
(** * Properties *)

(** ** Counting *)

Section Counting.
Context {A : Type} (p : A -> bool).

Lemma count_if_from (xs : list A) (acc : Z) :
  fold_left (fun acc x => if p x then acc + 1 else acc)%Z xs acc
  = (acc + Z.of_nat (List.length (filter p xs)))%Z.
Proof.
  revert acc; induction xs as [|x xs IH]; intro acc; simpl.
  - lia.
  - rewrite IH. destruct (p x); simpl List.length; lia.
Qed.

Lemma count_if_filter (xs : list A) :
  count_if p xs = Z.of_nat (List.length (filter p xs)).
Proof. unfold count_if. rewrite count_if_from. lia. Qed.

Lemma count_if_nonneg (xs : list A) : (0 <= count_if p xs)%Z.
Proof. rewrite count_if_filter. lia. Qed.

Lemma count_if_two (x y : A) (xs : list A) :
  In x xs -> In y xs -> x <> y -> p x = true -> p y = true ->
  (2 <= count_if p xs)%Z.
Proof.
  intros Hx Hy Hxy Px Py. rewrite count_if_filter.
  assert (Fx : In x (filter p xs)) by (apply filter_In; auto).
  assert (Fy : In y (filter p xs)) by (apply filter_In; auto).
  destruct (filter p xs) as [|a [|b l]]; simpl in *.
  - contradiction.
  - destruct Fx as [<-|[]], Fy as [<-|[]]. contradiction.
  - lia.
Qed.

End Counting.

Lemma mem_In (s : string) (xs : list string) : mem s xs = true <-> In s xs.
Proof.
  unfold mem. rewrite existsb_exists. split.
  - intros [x [Hx E]]. apply String.eqb_eq in E. now subst.
  - intro H. exists s. split; [assumption | apply String.eqb_refl].
Qed.

Lemma mem_not_In (s : string) (xs : list string) :
  mem s xs = false <-> ~ In s xs.
Proof.
  rewrite <- mem_In. destruct (mem s xs); split; intro H;
    congruence || (exfalso; apply H; reflexivity) || discriminate.
Qed.

(** ** The engine, field by field *)

Module EngineFacts.
Import TrustLensEngine.

Lemma analyze_unfold (w : World) (content content_type : string) :
  let context := detect_context content content_type in
  let sigs := run_rules content content_type context in
  let n := count_if is_red sigs in
  let out :=
    TrustLensAI.generate_summary w (narrative_input content content_type) in
  let business :=
    mem context ["partnership_offer"; "client_inquiry"; "vendor_proposal"] in
  analyze w content content_type
  = mkTrustAnalysis (snd (severity_of n)) (snd (fst (severity_of n))) sigs []
      (ai_generator.summary out) (ai_generator.whatYouMightMiss out)
      (ai_generator.actions out)
      (if business
       then Some (assess_business_priority sigs context
                    (fst (fst (severity_of n))))
       else None)
      (if business
       then Some (assess_company content (scraped_of w content))
       else None)
      context n (fst (fst (severity_of n))).
Proof.
  cbv zeta. unfold analyze, narrative_input, scraped_of.
  destruct (severity_of _) as [[sl ol] sc]; cbn [fst snd].
  destruct (mem _ _); reflexivity.
Qed.

Lemma severity_of_cases (n : Z) :
  (6 <= n /\ severity_of n = ("critical", snd (fst (severity_of 6)), 15))%Z
  \/ (3 <= n <= 5 /\ severity_of n = ("high", snd (fst (severity_of 3)), 35))%Z
  \/ (1 <= n <= 2
      /\ severity_of n = ("moderate", snd (fst (severity_of 1)), 55))%Z
  \/ (n <= 0 /\ severity_of n = ("low", snd (fst (severity_of 0)), 80))%Z.
Proof.
  unfold severity_of.
  destruct (Z.geb_spec n 6); [left; split; [lia | reflexivity]|].
  destruct (Z.geb_spec n 3); [right; left; split; [lia | reflexivity]|].
  destruct (Z.geb_spec n 1);
    [right; right; left; split; [lia | reflexivity]|].
  right; right; right; split; [lia | reflexivity].
Qed.

End EngineFacts.

(** ** Severity aggregation *)

Module Severity.
Import TrustLensEngine EngineFacts Spec.

(** C1.  For every analysis result, that of [POST /analyze] too,
    [concernCount] is the number of red signals of the result, and the tier
    and score are the step function of that count: 6 and more is
    critical/15, 3 to 5 is high/35, 1 or 2 is moderate/55, 0 is low/80. *)
Theorem analyze_concern_count_and_tier
    (w : World) (content content_type : string) :
  let r := analyze w content content_type in
  let n := red_count (signals r) in
  Api.analyze_content w (Api.mkAnalysisRequest content content_type) = r
  /\ concernCount r = n
  /\ (6 <= n -> severityLevel r = "critical" /\ overall_score r = 15)%Z
  /\ (3 <= n <= 5 -> severityLevel r = "high" /\ overall_score r = 35)%Z
  /\ (1 <= n <= 2 -> severityLevel r = "moderate" /\ overall_score r = 55)%Z
  /\ (n = 0 -> severityLevel r = "low" /\ overall_score r = 80)%Z.
Proof.
  cbv zeta. split; [reflexivity|].
  rewrite analyze_unfold; cbv zeta.
  cbn [signals concernCount severityLevel overall_score].
  unfold red_count. rewrite <- count_if_filter.
  set (n := count_if is_red _).
  split; [reflexivity|].
  destruct (severity_of_cases n) as [[H E]|[[H E]|[[H E]|[H E]]]];
    rewrite E; cbn [fst snd];
    repeat split; intros; try reflexivity; lia.
Qed.

Lemma analyze_concern_count_and_tier_witness :
  severityLevel (analyze offline two_clause_terms "text") = "moderate"
  /\ overall_score (analyze offline two_clause_terms "text") = 55%Z.
Proof.
  apply (analyze_concern_count_and_tier offline two_clause_terms "text").
  vm_compute. split; discriminate.
Defined.

(** C8.  The tier [analyze] derives from a concern count is the tier the
    narrative generator derives from the same count; hence the narrative of
    a result is the one of the templates of the tier the result reports. *)
Theorem severity_derivations_agree :
  (forall input_data : ai_generator.AIInput,
     fst (fst (severity_of (ai_generator.concernCount input_data)))
     = TrustLensAI._determine_severity input_data)
  /\ (forall (w : World) (content content_type : string),
        let r := analyze w content content_type in
        let input_data := narrative_input content content_type in
        ai_generator.concernCount input_data = concernCount r
        /\ TrustLensAI._determine_severity input_data = severityLevel r
        /\ whatYouMightMiss r
           = TrustLensAI._build_what_you_might_miss
               (ai_generator.signals input_data)
               (detectedContext r) (severityLevel r)
        /\ recommendedActions r
           = TrustLensAI._build_actions (detectedContext r) (severityLevel r)
               (ai_generator.signals input_data)).
Proof.
  assert (agree : forall input_data : ai_generator.AIInput,
            fst (fst (severity_of (ai_generator.concernCount input_data)))
            = TrustLensAI._determine_severity input_data).
  { intro input_data. unfold severity_of, TrustLensAI._determine_severity.
    destruct (ai_generator.concernCount input_data >=? 6)%Z; [reflexivity|].
    destruct (ai_generator.concernCount input_data >=? 3)%Z; [reflexivity|].
    destruct (ai_generator.concernCount input_data >=? 1)%Z; reflexivity. }
  split; [exact agree|].
  intros w content content_type. cbv zeta.
  rewrite analyze_unfold; cbv zeta.
  cbn [concernCount severityLevel whatYouMightMiss recommendedActions
       detectedContext].
  assert (same : TrustLensAI._determine_severity
                   (narrative_input content content_type)
                 = fst (fst (severity_of
                      (count_if is_red
                         (run_rules content content_type
                            (detect_context content content_type)))))).
  { rewrite <- agree. reflexivity. }
  split; [reflexivity|]. split; [exact same|].
  unfold TrustLensAI.generate_summary.
  cbn [ai_generator.whatYouMightMiss ai_generator.actions].
  rewrite same. split; reflexivity.
Qed.

End Severity.

(** ** Business assessments *)

Module Business.
Import TrustLensEngine EngineFacts Spec.

(** C2.  The result carries a business-priority record, and a
    company-assessment record, exactly when the detected context is
    partnership_offer, client_inquiry or vendor_proposal; for
    legal_agreement and consumer_message both are absent. *)
Theorem business_assessments_iff_business_context
    (w : World) (content content_type : string) :
  let r := analyze w content content_type in
  let business :=
    In (detectedContext r)
       ["partnership_offer"; "client_inquiry"; "vendor_proposal"] in
  (businessPriority r <> None <-> business)
  /\ (companyAssessment r <> None <-> business)
  /\ (In (detectedContext r) ["legal_agreement"; "consumer_message"] ->
      businessPriority r = None /\ companyAssessment r = None)
  /\ detectedContext r = detect_context content content_type.
Proof.
  cbv zeta. rewrite analyze_unfold; cbv zeta.
  cbn [businessPriority companyAssessment detectedContext].
  set (context := detect_context content content_type).
  destruct (mem context _) eqn:M.
  - apply mem_In in M.
    repeat split; intros; try assumption; try discriminate.
    all: exfalso; simpl in *;
      repeat match goal with H : _ \/ _ |- _ => destruct H end;
      try contradiction; congruence.
  - apply mem_not_In in M.
    repeat split; intros; try reflexivity; try contradiction.
    all: exfalso; auto.
Qed.

Lemma business_assessments_iff_business_context_witness :
  businessPriority (analyze offline urgent_partnership "text") <> None
  /\ businessPriority (analyze offline two_clause_terms "text") = None.
Proof.
  split.
  - apply (business_assessments_iff_business_context
             offline urgent_partnership "text").
    vm_compute. auto.
  - apply (business_assessments_iff_business_context
             offline two_clause_terms "text").
    vm_compute. auto.
Defined.

End Business.

(** ** Signal rules *)

Module RuleFacts.
Import Re Patterns TrustLensEngine Spec.

Lemma fold_collect {A B : Type} (p : A -> bool) (f : A -> B)
    (step : list B -> A -> list B) (xs : list A) (acc : list B) :
  (forall acc t, step acc t = if p t then acc ++ [f t] else acc) ->
  fold_left step xs acc = acc ++ map f (filter p xs).
Proof.
  intro Hstep. revert acc.
  induction xs as [|x xs IH]; intro acc; simpl.
  - now rewrite app_nil_r.
  - rewrite IH, Hstep. destruct (p x); simpl; [|reflexivity].
    now rewrite <- app_assoc.
Qed.

Lemma evaluate_all_legal (content : string) :
  LegalClauseRule.evaluate_all content "legal_agreement"
  = map signal_of_clause
      (filter (clause_matches (lower content))
         LegalClauseRule.CONCERNING_PATTERNS).
Proof.
  unfold LegalClauseRule.evaluate_all. cbn [String.eqb Ascii.eqb Bool.eqb negb].
  change (negb true) with false. cbv iota.
  apply (fold_collect (clause_matches (lower content)) signal_of_clause).
  intros acc [[pattern name] severity]. reflexivity.
Qed.

Lemma append_if_length (acc : list Signal) (o : option Signal) :
  List.length (append_if acc o) <= S (List.length acc).
Proof.
  destruct o; simpl; [rewrite length_app; simpl|]; lia.
Qed.

(** C3.  Outside legal_agreement the legal-clause rule emits nothing; in it
    the rule emits one signal per clause type whose pattern matches the
    lower-cased content, in the order of the table: red with confidence 0.95
    for VERY_HIGH, red with 0.85 for HIGH, yellow with 0.75 for MEDIUM.  It
    is the only rule that can contribute more than one signal to one
    evaluation. *)
Theorem legal_clause_rule_signals :
  (forall content context : string,
     LegalClauseRule.evaluate_all content context
     = if context =? "legal_agreement"
       then map signal_of_clause
              (filter (clause_matches (lower content))
         LegalClauseRule.CONCERNING_PATTERNS)
       else [])
  /\ (forall t, In t LegalClauseRule.CONCERNING_PATTERNS ->
        let '(_, n, severity) := t in
        let s := signal_of_clause t in
        name s = n
        /\ (severity = "VERY_HIGH" /\ level s = RED /\ confidence s = 0.95%Q
            \/ severity = "HIGH" /\ level s = RED /\ confidence s = 0.85%Q
            \/ severity = "MEDIUM" /\ level s = YELLOW
               /\ confidence s = 0.75%Q))
  /\ (forall n severity : string,
        level (LegalClauseRule.clause_signal n severity)
        = if (severity =? "VERY_HIGH") || (severity =? "HIGH")
          then RED else YELLOW)
  /\ (forall rule : TrustRule,
        (exists content content_type context,
           1 < List.length (run_rule content content_type context [] rule))
        <-> rule_class rule = LegalClause).
Proof.
  split; [|split; [|split]].
  - intros content context.
    destruct (context =? "legal_agreement") eqn:E.
    + apply String.eqb_eq in E. subst context. apply evaluate_all_legal.
    + unfold LegalClauseRule.evaluate_all. now rewrite E.
  - intros t Ht. unfold LegalClauseRule.CONCERNING_PATTERNS in Ht. simpl in Ht.
    repeat (destruct Ht as [<-|Ht];
            [split; [reflexivity | cbn; intuition reflexivity]|]).
    contradiction.
  - intros n severity. unfold LegalClauseRule.clause_signal, mem.
    cbn [level existsb].
    now rewrite orb_false_r.
  - intro rule. split.
    + intros (content & content_type & context & H).
      unfold run_rule in H.
      destruct (rule_class rule); [reflexivity| |];
        match type of H with
        | _ < List.length (append_if ?a ?o) =>
            pose proof (append_if_length a o) as L; simpl in L; lia
        end.
    + intro E. exists two_clause_terms, "text", "legal_agreement".
      unfold run_rule. rewrite E. vm_compute. lia.
Qed.

Lemma legal_clause_rule_signals_witness :
  exists content content_type context,
    1 < List.length
          (run_rule content content_type context []
             (mkRule LegalClause "Legal Risk Analysis" 1.0%Q)).
Proof.
  apply (proj2 (proj2 (proj2 (proj2 legal_clause_rule_signals)) _)).
  reflexivity.
Defined.

(** C5.  Whatever the context, the high-pressure rule emits the red
    Predatory Pressure Pattern signal with confidence 0.95 when the
    urgency, action-demand and consequence cues all occur in the lower-cased
    content, the red High-Pressure Tactics signal with confidence 0.85 when
    urgency and action-demand occur without the consequence cue, and nothing
    otherwise. *)
Theorem high_pressure_rule (content content_type context : string) :
  let text := lower content in
  let urgency := found urgency_re text in
  let action_demand := found action_re text in
  let consequence := found consequence_re text in
  (urgency = true /\ action_demand = true /\ consequence = true ->
   exists msg,
     HighPressurePatternRule.evaluate content content_type context
     = Some (mkSignal "Predatory Pressure Pattern" RED msg 0.95%Q))
  /\ (urgency = true /\ action_demand = true /\ consequence = false ->
      exists msg,
        HighPressurePatternRule.evaluate content content_type context
        = Some (mkSignal "High-Pressure Tactics" RED msg 0.85%Q))
  /\ (urgency = false \/ action_demand = false ->
      HighPressurePatternRule.evaluate content content_type context = None).
Proof.
  cbv zeta. unfold HighPressurePatternRule.evaluate.
  destruct (found urgency_re _), (found action_re _),
    (found consequence_re _); cbn [andb];
    repeat split; intros H; try (eexists; reflexivity);
    try reflexivity; exfalso; intuition discriminate.
Qed.

Lemma high_pressure_rule_witness :
  (exists msg,
     HighPressurePatternRule.evaluate urgent_partnership "text" "partnership_offer"
     = Some (mkSignal "Predatory Pressure Pattern" RED msg 0.95%Q))
  /\ (exists msg,
        HighPressurePatternRule.evaluate "Reply today." "text" "consumer_message"
        = Some (mkSignal "High-Pressure Tactics" RED msg 0.85%Q))
  /\ HighPressurePatternRule.evaluate "See you tomorrow." "text" "consumer_message" = None.
Proof.
  split; [|split].
  - apply (high_pressure_rule urgent_partnership "text" "partnership_offer").
    vm_compute. auto.
  - apply (high_pressure_rule "Reply today." "text" "consumer_message").
    vm_compute. auto.
  - apply (high_pressure_rule "See you tomorrow." "text" "consumer_message").
    vm_compute. auto.
Defined.

(** Case analysis on the four cue searches of a content. *)
Ltac cue_cases content :=
  destruct (found website_re content), (found linkedin_re (lower content)),
    (found domain_email_re content), (found company_name_re content).

(** C6.  Only in the contexts partnership_offer, client_inquiry and
    vendor_proposal does the verifiability rule run; there it counts the
    four cues (URL, LinkedIn reference, e-mail domain, company suffix) and
    emits the red Zero Verifiable Identity signal with confidence 0.9 for
    none, the yellow Limited Verifiability signal with confidence 0.75 whose
    message gives the count out of 4 for one or two, and nothing for three
    or four. *)
Theorem verifiability_rule (content content_type context : string) :
  let n := cue_count content in
  let result := VerifiabilityRule.evaluate content content_type context in
  (~ In context ["partnership_offer"; "client_inquiry"; "vendor_proposal"] ->
   result = None)
  /\ (In context ["partnership_offer"; "client_inquiry"; "vendor_proposal"] ->
      (n = 0%Z ->
       exists msg,
         result = Some (mkSignal "Zero Verifiable Identity" RED msg 0.9%Q))
      /\ (n = 1%Z ->
          result
          = Some (mkSignal "Limited Verifiability" YELLOW
                    "Only 1/4 verification elements present. Request additional proof of legitimacy."
                    0.75%Q))
      /\ (n = 2%Z ->
          result
          = Some (mkSignal "Limited Verifiability" YELLOW
                    "Only 2/4 verification elements present. Request additional proof of legitimacy."
                    0.75%Q))
      /\ (n = 3%Z \/ n = 4%Z -> result = None))
  /\ (0 <= n <= 4)%Z.
Proof.
  cbv zeta.
  unfold cue_count, cues, VerifiabilityRule.evaluate,
    VerifiabilityRule.business_contexts.
  split; [|split].
  - intro H. apply mem_not_In in H. now rewrite H.
  - intro H. apply mem_In in H. rewrite H. cbn [negb].
    cue_cases content; cbn; repeat split; intros E;
      try (eexists; reflexivity); try reflexivity;
      exfalso; clear H; intuition discriminate.
  - cue_cases content; cbn; lia.
Qed.

Lemma verifiability_rule_witness :
  VerifiabilityRule.evaluate "Write to bob@acme.io" "text" "vendor_proposal"
  = Some (mkSignal "Limited Verifiability" YELLOW
            "Only 1/4 verification elements present. Request additional proof of legitimacy."
            0.75%Q)
  /\ VerifiabilityRule.evaluate "Write to bob@acme.io" "text" "legal_agreement"
     = None.
Proof.
  split.
  - destruct (verifiability_rule "Write to bob@acme.io" "text"
                "vendor_proposal") as [_ [Hin _]].
    apply Hin.
    + simpl. auto.
    + vm_compute. reflexivity.
  - destruct (verifiability_rule "Write to bob@acme.io" "text"
                "legal_agreement") as [Hout _].
    apply Hout. simpl. intros [H|[H|[H|[]]]]; discriminate H.
Defined.

End RuleFacts.

(** ** Context detection *)

Module ContextFacts.
Import Spec.

Lemma drop_prefix_lower (p s r : string) :
  drop_prefix p s = Some r ->
  drop_prefix (lower p) (lower s) = Some (lower r).
Proof.
  revert s; induction p as [|a p IH]; intros s H; simpl in *.
  - now inversion H.
  - destruct s as [|b s]; [discriminate|]. simpl.
    destruct (Ascii.eqb_spec a b) as [->|]; [|discriminate].
    rewrite Ascii.eqb_refl. now apply IH.
Qed.

(** A phrase found in a text is found, lower-cased, in the lower-cased
    text. *)
Lemma contains_lower (p s : string) :
  contains p s = true -> contains (lower p) (lower s) = true.
Proof.
  induction s as [|c s IH]; intro H; cbn [contains] in H.
  - destruct (drop_prefix p EmptyString) eqn:E; [|discriminate].
    apply drop_prefix_lower in E. cbn [lower contains] in *. now rewrite E.
  - destruct (drop_prefix p (String c s)) eqn:E.
    + apply drop_prefix_lower in E. cbn [lower contains] in *. now rewrite E.
    + cbn [lower contains].
      destruct (drop_prefix (lower p) _); [reflexivity|]. now apply IH.
Qed.

Lemma count_if_none {A : Type} (p : A -> bool) (xs : list A) :
  (forall x, In x xs -> p x = false) -> count_if p xs = 0%Z.
Proof.
  intro H. rewrite count_if_filter.
  replace (filter p xs) with (@nil A); [reflexivity|].
  symmetry. induction xs as [|x xs IH]; [reflexivity|]. simpl.
  rewrite (H x (or_introl eq_refl)). apply IH.
  intros y Hy. apply H. now right.
Qed.

Lemma any_in_none (words : list string) (text : string) :
  (forall k, In k words -> contains k text <> true) ->
  any_in words text = false.
Proof.
  intro H. unfold any_in.
  destruct (existsb _ words) eqn:E; [|reflexivity].
  apply existsb_exists in E. destruct E as [k [Hk E]].
  now destruct (H k Hk).
Qed.

Lemma detect_context_branches (content content_type : string) :
  detect_context content content_type
  = if legal_test content then "legal_agreement"
    else if partnership_test content then "partnership_offer"
    else if client_test content then "client_inquiry"
    else if vendor_test content then "vendor_proposal"
    else if employment_test content then "consumer_message"
    else "consumer_message".
Proof. reflexivity. Qed.

Lemma detect_context_in_contexts (content content_type : string) :
  In (detect_context content content_type) contexts.
Proof.
  rewrite detect_context_branches. unfold contexts.
  destruct (legal_test content), (partnership_test content),
    (client_test content), (vendor_test content), (employment_test content);
    simpl; auto 6.
Qed.

(** C4.  A text that mentions terms of service or user agreement, or at
    least two phrases of the legal-marker list, is a legal_agreement; a text
    that mentions none of the context keywords is a consumer_message; every
    text, the empty one too, gets one of the five contexts.  To mention a
    phrase is to hold it letter case apart, which a text holding the phrase
    as written does. *)
Theorem detect_context_legal_and_default (content content_type : string) :
  (mentions content "terms of service" \/ mentions content "user agreement"
   \/ (exists m1 m2,
         In m1 legal_markers /\ In m2 legal_markers /\ m1 <> m2
         /\ mentions content m1 /\ mentions content m2) ->
   detect_context content content_type = "legal_agreement")
  /\ (forall k,
        In k context_keywords -> contains k content = true ->
        mentions content k)
  /\ ((forall k, In k context_keywords -> ~ mentions content k) ->
      detect_context content content_type = "consumer_message")
  /\ In (detect_context content content_type) contexts
  /\ detect_context EmptyString content_type = "consumer_message".
Proof.
  assert (legal :
    mentions content "terms of service" \/ mentions content "user agreement"
    \/ (exists m1 m2,
          In m1 legal_markers /\ In m2 legal_markers /\ m1 <> m2
          /\ mentions content m1 /\ mentions content m2) ->
    detect_context content content_type = "legal_agreement").
  { unfold mentions. intro H. rewrite detect_context_branches.
    unfold legal_test.
    destruct H as [H|[H|(m1 & m2 & I1 & I2 & D & H1 & H2)]].
    - rewrite H. now rewrite orb_true_r.
    - rewrite H. now rewrite orb_true_r.
    - pose proof (count_if_two
                    (fun marker => contains marker (lower content))
                    m1 m2 legal_markers I1 I2 D H1 H2) as C.
      apply Z.geb_le in C. now rewrite C. }
  split; [exact legal|]. split; [|split; [|split]].
  - intros k Hk H. unfold mentions.
    replace k with (lower k); [exact (contains_lower _ _ H)|].
    clear H. revert k Hk. apply Forall_forall.
    unfold context_keywords, legal_markers, partnership_words, client_words,
      vendor_words, employment_words. cbn [app].
    repeat (constructor; [reflexivity|]). constructor.
  - intro H. rewrite detect_context_branches.
    assert (none : forall words,
              incl words context_keywords ->
              any_in words (lower content) = false).
    { intros words I. apply any_in_none. intros k Hk. apply H, I, Hk. }
    unfold legal_test, partnership_test, client_test, vendor_test,
      employment_test.
    rewrite count_if_none.
    2:{ intros k Hk. apply not_true_is_false, H.
        unfold context_keywords. apply in_or_app. now left. }
    assert (T : contains "terms of service" (lower content) = false).
    { apply not_true_is_false, H. unfold context_keywords, legal_markers.
      simpl. auto. }
    assert (U : contains "user agreement" (lower content) = false).
    { apply not_true_is_false, H. unfold context_keywords, legal_markers.
      simpl. auto. }
    rewrite T, U. cbn [Z.geb Z.compare orb].
    rewrite !none; [reflexivity| | | |];
      unfold context_keywords; intros k Hk;
      repeat (apply in_or_app; (now left) || right); exact Hk.
  - apply detect_context_in_contexts.
  - reflexivity.
Qed.

Lemma detect_context_legal_and_default_witness :
  detect_context "Our PRIVACY POLICY and this Contract apply." "text"
  = "legal_agreement"
  /\ detect_context "User Agreement" "text" = "legal_agreement".
Proof.
  split.
  - apply (proj1 (detect_context_legal_and_default
                    "Our PRIVACY POLICY and this Contract apply." "text")).
    right; right. exists "privacy policy", "contract".
    unfold mentions, legal_markers. simpl In.
    repeat split; auto 6; discriminate.
  - apply (proj1 (detect_context_legal_and_default "User Agreement" "text")).
    right; left. reflexivity.
Defined.

(** C10.  A text whose first matching branch is the employment-keyword test
    is a consumer_message, the value of the no-match fall-back; the range of
    the detector is exactly the five tags, none of them particular to
    employment. *)
Theorem detect_context_employment_and_range :
  (forall content content_type : string,
     legal_test content = false -> partnership_test content = false ->
     client_test content = false -> vendor_test content = false ->
     employment_test content = true ->
     detect_context content content_type = "consumer_message"
     /\ detect_context content content_type
        = detect_context EmptyString content_type)
  /\ (forall content content_type : string,
        In (detect_context content content_type) contexts)
  /\ (forall tag, In tag contexts ->
        exists content, forall content_type,
          detect_context content content_type = tag).
Proof.
  split; [|split].
  - intros content content_type L P C V E.
    rewrite detect_context_branches, L, P, C, V, E. split; reflexivity.
  - apply detect_context_in_contexts.
  - intros tag H. unfold contexts in H. simpl in H.
    destruct H as [<-|[<-|[<-|[<-|[<-|[]]]]]].
    + exists "terms of service". reflexivity.
    + exists "partnership". reflexivity.
    + exists "client inquiry". reflexivity.
    + exists "vendor". reflexivity.
    + exists EmptyString. reflexivity.
Qed.

Lemma detect_context_employment_and_range_witness :
  detect_context "We are hiring for a new position." "text"
  = "consumer_message".
Proof.
  apply (proj1 detect_context_employment_and_range
           "We are hiring for a new position." "text");
    reflexivity.
Defined.

End ContextFacts.

(** ** Narrative generation *)

Module NarrativeFacts.
Import ai_generator TrustLensAI Spec.

Lemma item_some (key : string) (v r : json) :
  item key v = Some r ->
  exists kvs, v = JObj kvs /\ dict_get key kvs = Some r.
Proof.
  destruct v; simpl; try discriminate. intro H. eauto.
Qed.

(** The text is extracted only from a reply of the expected shape. *)
Lemma candidate_text_shape (result : json) (s : string) :
  candidate_text result = Some s ->
  exists text, reply_shape result text /\ s = strip text.
Proof.
  unfold candidate_text, bind. intro H.
  destruct (item "candidates" result) as [a|] eqn:Ea; [|discriminate].
  destruct (item0 a) as [b|] eqn:Eb; [|discriminate].
  destruct (item "content" b) as [c|] eqn:Ec; [|discriminate].
  destruct (item "parts" c) as [d|] eqn:Ed; [|discriminate].
  destruct (item0 d) as [e|] eqn:Ee; [|discriminate].
  destruct (item "text" e) as [f|] eqn:Ef; [|discriminate].
  apply item_some in Ea, Ec, Ed, Ef.
  destruct Ea as (top & -> & Ha), Ec as (cand & -> & Hc),
    Ed as (content & -> & Hd), Ef as (part & -> & Hf).
  destruct a as [| | |sa|[|a0 cands]|]; simpl in Eb; try discriminate;
    [destruct sa; discriminate|]. injection Eb as ->.
  destruct d as [| | |sd|[|d0 parts]|]; simpl in Ee; try discriminate;
    [destruct sd; discriminate|]. injection Ee as ->.
  destruct f as [| | |text| |]; simpl in H; try discriminate.
  injection H as <-.
  exists text. split; [|reflexivity].
  exists top, cands, cand, content, parts, part. auto.
Qed.

Lemma enhance_fails (w : World) (input_data : AIInput) :
  enhancement_failed w input_data ->
  _enhance_with_gemini w input_data (template_summary input_data)
    (_determine_severity input_data) = None.
Proof.
  unfold enhancement_failed, enhancement_reply, _enhance_with_gemini.
  destruct (http_post w _ _) as [msg|response]; [reflexivity|].
  intros [H|[H|(result & E & H)]].
  - apply Z.eqb_neq in H. now rewrite H.
  - rewrite H. now destruct (status_code response =? 200)%Z.
  - rewrite E. destruct (status_code response =? 200)%Z; [|reflexivity].
    destruct (has_key "candidates" result) as [[|]|]; try reflexivity.
    destruct (candidate_text result) as [s|] eqn:C; [|reflexivity].
    apply candidate_text_shape in C. destruct C as (text & S & _).
    now destruct (H text).
Qed.

(** C7.  When the enhancement call fails (the client raises or times out,
    the status is not 200, the body does not decode or lacks the expected
    shape) the summary is the template summary; with or without failure,
    and whatever the service answers, the explanation and the action list
    are the ones computed from the templates. *)
Theorem enhancement_failure_keeps_template
    (w : World) (input_data : AIInput) :
  let out := generate_summary w input_data in
  let severity := _determine_severity input_data in
  let template_explanation :=
    _build_what_you_might_miss (signals input_data)
      (detectedContext input_data) severity in
  let template_actions :=
    _build_actions (detectedContext input_data) severity
      (signals input_data) in
  (enhancement_failed w input_data ->
   summary out = template_summary input_data)
  /\ whatYouMightMiss out = template_explanation
  /\ actions out = template_actions
  /\ (forall w' : World,
        whatYouMightMiss (generate_summary w' input_data)
        = template_explanation
        /\ actions (generate_summary w' input_data) = template_actions).
Proof.
  cbv zeta. unfold generate_summary.
  cbn [summary whatYouMightMiss actions].
  split; [|repeat split].
  intro F. apply enhance_fails in F. unfold template_summary in F.
  rewrite F. now destruct (_ && _).
Qed.

Lemma enhancement_failure_keeps_template_witness :
  summary (generate_summary (answering server_error) critical_input)
  = template_summary critical_input.
Proof.
  apply (proj1 (enhancement_failure_keeps_template
                  (answering server_error) critical_input)).
  left. discriminate.
Defined.

(** The enhancement path is live: a well-formed reply replaces the
    summary, and only the summary. *)
Example enhanced_summary_replaces_template :
  let w := answering
             (Returned (mkResponse 200%Z EmptyString
                          (Some (reply_with "  A one-sided agreement. ")))) in
  summary (generate_summary w critical_input)
  = "A one-sided agreement."
  /\ whatYouMightMiss (generate_summary w critical_input)
     = whatYouMightMiss (generate_summary offline critical_input).
Proof. vm_compute. split; reflexivity. Qed.

End NarrativeFacts.

(** ** Compatibility endpoint *)

Module ApiFacts.
Import Api Spec.

Lemma convert_signals_none (str_field : json -> option string)
    (sigs : list Dict) :
  convert_signals str_field sigs = None
  <-> exists sig, In sig sigs /\ convert_signal str_field sig = None.
Proof.
  induction sigs as [|sig sigs IH]; simpl.
  - split; [discriminate | intros (? & [] & _)].
  - destruct (convert_signal str_field sig) as [s|] eqn:E.
    + destruct (convert_signals str_field sigs) as [l|]; simpl; split.
      * discriminate.
      * intros (x & [<-|Hx] & Ex); [congruence|].
        assert (C : Some l = None) by (apply IH; eauto). discriminate C.
      * intros _. destruct (proj1 IH eq_refl) as (x & Hx & Ex). eauto.
      * reflexivity.
    + split; [eauto | reflexivity].
Qed.

(** C9.  When the processing of a request raises (some signal of the
    request fails validation) the endpoint answers the fixed fall-back
    response, fallback true, model fallback, the generic summary; when it
    does not, it answers fallback false with the generated summary. *)
Theorem generate_summary_endpoint
    (str_field : json -> option string) (w : World)
    (request : AIGenerateRequest) :
  let response := generate_summary str_field w request in
  ((exists sig,
      In sig (signals request) /\ convert_signal str_field sig = None)
   <-> generate_summary_try str_field w request = None)
  /\ (generate_summary_try str_field w request = None ->
      response = fallback_response
      /\ fallback response = true /\ modelUsed response = "fallback"
      /\ summary response = "Analysis complete. Review the detected signals.")
  /\ (forall ai_signals,
        convert_signals str_field (signals request) = Some ai_signals ->
        fallback response = false
        /\ summary response
           = ai_generator.summary
               (TrustLensAI.generate_summary w
                  (ai_generator.mkAIInput (inputType request)
                     (originalInput request)
                     (detectedContext request) ai_signals None None
                     (Z.of_nat
                        (List.length
                           (filter category_is_risk (signals request))))
                     "low"))).
Proof.
  cbv zeta. unfold generate_summary, generate_summary_try.
  split; [|split].
  - rewrite <- convert_signals_none.
    destruct (convert_signals str_field (signals request));
      split; congruence.
  - destruct (convert_signals str_field (signals request));
      [discriminate|]. intros _. repeat split.
  - intros ai_signals E. rewrite E. split; reflexivity.
Qed.

Lemma generate_summary_endpoint_witness :
  generate_summary strict_str offline null_title_request = fallback_response
  /\ fallback (generate_summary strict_str offline good_request) = false.
Proof.
  split.
  - apply (generate_summary_endpoint strict_str offline null_title_request).
    reflexivity.
  - destruct (generate_summary_endpoint strict_str offline good_request)
      as [_ [_ H]].
    apply (H [ai_generator.mkSignal "sig-0" "risk" "High-Pressure Tactics"
                EmptyString None
                "unknown" (Some "medium") None]).
    reflexivity.
Defined.

End ApiFacts.

(* ================================================================== *)
(** * Further properties *)

(** ** The signal list of an analysis *)

Module EngineMore.
Import Re Patterns TrustLensEngine EngineFacts Spec Notions.

Lemma run_rules_parts (content content_type context : string) :
  run_rules content content_type context
  = LegalClauseRule.evaluate_all content context
    ++ emitted (HighPressurePatternRule.evaluate content content_type context)
    ++ emitted (VerifiabilityRule.evaluate content content_type context).
Proof.
  unfold run_rules, rules. cbn [fold_left]. unfold run_rule.
  cbn [rule_class app].
  destruct (HighPressurePatternRule.evaluate _ _ _),
    (VerifiabilityRule.evaluate _ _ _); cbn [append_if emitted];
    rewrite <- ?app_assoc, ?app_nil_r; reflexivity.
Qed.

Lemma evaluate_all_elsewhere (content context : string) :
  context <> "legal_agreement" ->
  LegalClauseRule.evaluate_all content context = [].
Proof.
  intro H. apply String.eqb_neq in H.
  unfold LegalClauseRule.evaluate_all. now rewrite H.
Qed.

Lemma verifiability_elsewhere (content content_type context : string) :
  ~ In context VerifiabilityRule.business_contexts ->
  VerifiabilityRule.evaluate content content_type context = None.
Proof.
  intro H. apply mem_not_In in H.
  unfold VerifiabilityRule.evaluate. now rewrite H.
Qed.

Lemma clause_signal_concern (n severity : string) :
  concern (LegalClauseRule.clause_signal n severity).
Proof.
  unfold concern, LegalClauseRule.clause_signal. cbn [level].
  destruct (mem severity _); auto.
Qed.

Lemma evaluate_all_concern (content context : string) :
  Forall concern (LegalClauseRule.evaluate_all content context).
Proof.
  destruct (string_dec context "legal_agreement") as [->|N].
  - rewrite RuleFacts.evaluate_all_legal. apply Forall_map, Forall_forall.
    intros [[pattern n] severity] _. apply clause_signal_concern.
  - rewrite (evaluate_all_elsewhere _ _ N). constructor.
Qed.

Lemma pressure_red (content content_type context : string) (s : Signal) :
  HighPressurePatternRule.evaluate content content_type context = Some s ->
  level s = RED
  /\ In (name s) ["Predatory Pressure Pattern"; "High-Pressure Tactics"].
Proof.
  unfold HighPressurePatternRule.evaluate.
  destruct (_ && _ && _); [intro H; injection H as <-; simpl; auto|].
  destruct (_ && _); [intro H; injection H as <-; simpl; auto|].
  discriminate.
Qed.

Lemma verifiability_concern (content content_type context : string)
    (s : Signal) :
  VerifiabilityRule.evaluate content content_type context = Some s ->
  concern s
  /\ In (name s) ["Zero Verifiable Identity"; "Limited Verifiability"].
Proof.
  unfold VerifiabilityRule.evaluate, concern.
  destruct (negb _); [discriminate|].
  destruct (_ =? 0)%Z; [intro H; injection H as <-; simpl; auto|].
  destruct (_ <=? 2)%Z; [intro H; injection H as <-; simpl; auto|].
  discriminate.
Qed.

Lemma emitted_length (o : option Signal) : List.length (emitted o) <= 1.
Proof. destruct o; simpl; lia. Qed.

Lemma filter_map_filter_le {A B : Type} (q : B -> bool) (f : A -> B)
    (p : A -> bool) (xs : list A) :
  List.length (filter q (map f (filter p xs)))
  <= List.length (filter (fun x => q (f x)) xs).
Proof.
  induction xs as [|x xs IH]; simpl; [lia|].
  destruct (p x); simpl; destruct (q (f x)); simpl; lia.
Qed.

Lemma evaluate_all_length (content context : string) :
  List.length (LegalClauseRule.evaluate_all content context) <= 14
  /\ List.length (filter is_red (LegalClauseRule.evaluate_all content context))
     <= 12.
Proof.
  destruct (string_dec context "legal_agreement") as [->|N].
  - rewrite RuleFacts.evaluate_all_legal. split.
    + rewrite length_map.
      exact (filter_length_le _ LegalClauseRule.CONCERNING_PATTERNS).
    + exact (filter_map_filter_le is_red signal_of_clause _
               LegalClauseRule.CONCERNING_PATTERNS).
  - rewrite (evaluate_all_elsewhere _ _ N). simpl. lia.
Qed.

Lemma not_green_count (sigs : list Signal) :
  Forall concern sigs -> count_if is_green sigs = 0%Z.
Proof.
  intro H. rewrite count_if_filter.
  replace (filter is_green sigs) with (@nil Signal); [reflexivity|].
  induction H as [|s sigs [C|C] _ IH]; [reflexivity| |]; simpl;
    unfold is_green at 1; rewrite C; exact IH.
Qed.

Lemma analyze_signals (w : World) (content content_type : string) :
  signals (analyze w content content_type)
  = run_rules content content_type (detect_context content content_type)
  /\ detectedContext (analyze w content content_type)
     = detect_context content content_type.
Proof. rewrite analyze_unfold. split; reflexivity. Qed.

Lemma signals_concern (content content_type context : string) :
  Forall concern (run_rules content content_type context).
Proof.
  rewrite run_rules_parts. apply Forall_app. split.
  - apply evaluate_all_concern.
  - apply Forall_app. split.
    + destruct (HighPressurePatternRule.evaluate _ _ _) as [s|] eqn:E;
        constructor; [|constructor].
      left. exact (proj1 (pressure_red _ _ _ _ E)).
    + destruct (VerifiabilityRule.evaluate _ _ _) as [s|] eqn:E;
        constructor; [|constructor].
      exact (proj1 (verifiability_concern _ _ _ _ E)).
Qed.

(** X1.  The signals of a result are the signals of the matching clause
    types in the order of the table (none outside legal_agreement), then
    the pressure signal if any, then the verifiability signal if any; none
    of them is green. *)
Theorem analyze_signals_in_rule_order
    (w : World) (content content_type : string) :
  let r := analyze w content content_type in
  let context := detectedContext r in
  signals r
  = (if context =? "legal_agreement"
     then map signal_of_clause
            (filter (clause_matches (lower content))
               LegalClauseRule.CONCERNING_PATTERNS)
     else [])
    ++ emitted (HighPressurePatternRule.evaluate content content_type context)
    ++ emitted (VerifiabilityRule.evaluate content content_type context)
  /\ Forall concern (signals r)
  /\ count_if is_green (signals r) = 0%Z.
Proof.
  cbv zeta. destruct (analyze_signals w content content_type) as [-> ->].
  pose proof (signals_concern content content_type
                (detect_context content content_type)) as C.
  split; [|split; [exact C | exact (not_green_count _ C)]].
  rewrite run_rules_parts. f_equal.
  destruct (detect_context content content_type =? "legal_agreement") eqn:E.
  - apply String.eqb_eq in E. rewrite E. apply RuleFacts.evaluate_all_legal.
  - apply String.eqb_neq in E. now apply evaluate_all_elsewhere.
Qed.

Lemma business_not_legal (context : string) :
  In context VerifiabilityRule.business_contexts ->
  context <> "legal_agreement".
Proof.
  unfold VerifiabilityRule.business_contexts. simpl.
  intros [<-|[<-|[<-|[]]]]; discriminate.
Qed.

Lemma legal_not_business :
  ~ In "legal_agreement" VerifiabilityRule.business_contexts.
Proof.
  unfold VerifiabilityRule.business_contexts. simpl.
  intros [H|[H|[H|[]]]]; discriminate.
Qed.

Lemma run_rules_lengths (content content_type context : string) :
  let sigs := run_rules content content_type context in
  List.length sigs <= 15
  /\ List.length (filter is_red sigs) <= 13
  /\ (context <> "legal_agreement" -> List.length sigs <= 2)
  /\ (context <> "legal_agreement" ->
      ~ In context VerifiabilityRule.business_contexts ->
      List.length sigs <= 1).
Proof.
  cbv zeta. rewrite run_rules_parts.
  pose proof (evaluate_all_length content context) as [L R].
  pose proof (emitted_length
                (HighPressurePatternRule.evaluate content content_type context))
    as P.
  pose proof (emitted_length
                (VerifiabilityRule.evaluate content content_type context))
    as V.
  pose proof (filter_length_le is_red
                (emitted (HighPressurePatternRule.evaluate content
                            content_type context))) as FP.
  pose proof (filter_length_le is_red
                (emitted (VerifiabilityRule.evaluate content
                            content_type context))) as FV.
  rewrite !filter_app, !length_app.
  destruct (string_dec context "legal_agreement") as [->|N].
  - rewrite (verifiability_elsewhere content content_type "legal_agreement"
               legal_not_business) in *.
    simpl in *. repeat split; intros; try lia; congruence.
  - rewrite (evaluate_all_elsewhere _ _ N) in *. simpl in *.
    repeat split; intros; try lia.
    rewrite (verifiability_elsewhere content content_type context) in V
      by assumption.
    rewrite (verifiability_elsewhere content content_type context)
      by assumption.
    simpl in *. lia.
Qed.

(** X2.  A result holds at most 15 signals and reports at most 13 concerns;
    outside legal_agreement it holds at most two signals, and in
    consumer_message at most one. *)
Theorem analyze_signal_bounds (w : World) (content content_type : string) :
  let r := analyze w content content_type in
  List.length (signals r) <= 15
  /\ (0 <= concernCount r <= 13)%Z
  /\ (detectedContext r <> "legal_agreement" -> List.length (signals r) <= 2)
  /\ (detectedContext r = "consumer_message" -> List.length (signals r) <= 1).
Proof.
  cbv zeta. rewrite analyze_unfold; cbv zeta.
  cbn [signals concernCount detectedContext].
  pose proof (run_rules_lengths content content_type
                (detect_context content content_type)) as (A & B & C & D).
  repeat split; try assumption.
  - apply count_if_nonneg.
  - rewrite count_if_filter. lia.
  - intro E. apply D; rewrite E; [discriminate|].
    unfold VerifiabilityRule.business_contexts. simpl.
    intros [H|[H|[H|[]]]]; discriminate.
Qed.

Lemma analyze_signal_bounds_witness :
  List.length (signals (analyze offline urgent_partnership "text")) <= 2.
Proof.
  apply (analyze_signal_bounds offline urgent_partnership "text").
  vm_compute. discriminate.
Defined.

Lemma severity_below_three (n : Z) :
  (n < 3)%Z ->
  fst (fst (severity_of n)) = "moderate" \/ fst (fst (severity_of n)) = "low".
Proof.
  intro H. destruct (severity_of_cases n) as [[L E]|[[L E]|[[L E]|[L E]]]];
    rewrite E; cbn [fst]; auto; lia.
Qed.

Lemma concerns_outside_legal (content content_type : string) :
  detect_context content content_type <> "legal_agreement" ->
  (count_if is_red
     (run_rules content content_type (detect_context content content_type))
   < 3)%Z.
Proof.
  intro N. rewrite count_if_filter.
  pose proof (run_rules_lengths content content_type
                (detect_context content content_type)) as (_ & _ & C & _).
  specialize (C N).
  pose proof (filter_length_le is_red
                (run_rules content content_type
                   (detect_context content content_type))). lia.
Qed.

(** X3.  Only a legal_agreement is ever rated high or critical: in every
    other context the tier is low or moderate and the score 80 or 55. *)
Theorem high_severity_only_for_legal_agreement
    (w : World) (content content_type : string) :
  let r := analyze w content content_type in
  (severityLevel r = "critical" \/ severityLevel r = "high" ->
   detectedContext r = "legal_agreement")
  /\ (detectedContext r <> "legal_agreement" ->
      (severityLevel r = "moderate" /\ overall_score r = 55%Z)
      \/ (severityLevel r = "low" /\ overall_score r = 80%Z)).
Proof.
  cbv zeta. rewrite analyze_unfold; cbv zeta.
  cbn [severityLevel detectedContext overall_score].
  assert (other : detect_context content content_type <> "legal_agreement" ->
            let n := count_if is_red
                       (run_rules content content_type
                          (detect_context content content_type)) in
            (fst (fst (severity_of n)) = "moderate" /\ snd (severity_of n) = 55%Z)
            \/ (fst (fst (severity_of n)) = "low"
                /\ snd (severity_of n) = 80%Z)).
  { intro N. cbv zeta. pose proof (concerns_outside_legal _ _ N) as L.
    destruct (severity_of_cases
                (count_if is_red
                   (run_rules content content_type
                      (detect_context content content_type))))
      as [[B E]|[[B E]|[[B E]|[B E]]]]; rewrite E; cbn [fst snd];
      auto; lia. }
  split; [|exact other].
  intro H.
  destruct (string_dec (detect_context content content_type)
              "legal_agreement") as [E|N]; [exact E|].
  destruct (other N) as [[S _]|[S _]]; rewrite S in H;
    destruct H; discriminate.
Qed.

Lemma high_severity_only_for_legal_agreement_witness :
  detectedContext (analyze offline six_clause_terms "text")
  = "legal_agreement".
Proof.
  apply (proj1 (high_severity_only_for_legal_agreement
                  offline six_clause_terms "text")).
  left. vm_compute. reflexivity.
Defined.

End EngineMore.

(** ** The narrative generator *)

Module NarrativeMore.
Import ai_generator TrustLensAI Spec Notions.

Lemma determine_severity_cases (input_data : AIInput) :
  (6 <= concernCount input_data
   /\ _determine_severity input_data = "critical")%Z
  \/ (3 <= concernCount input_data <= 5
      /\ _determine_severity input_data = "high")%Z
  \/ (1 <= concernCount input_data <= 2
      /\ _determine_severity input_data = "moderate")%Z
  \/ (concernCount input_data <= 0
      /\ _determine_severity input_data = "low")%Z.
Proof.
  unfold _determine_severity.
  destruct (Z.geb_spec (concernCount input_data) 6); [left; split; [lia|easy]|].
  destruct (Z.geb_spec (concernCount input_data) 3);
    [right; left; split; [lia|easy]|].
  destruct (Z.geb_spec (concernCount input_data) 1);
    [right; right; left; split; [lia|easy]|].
  right; right; right; split; [lia|easy].
Qed.

Lemma no_call (w : World) (input_data : AIInput) :
  (concernCount input_data < 3)%Z \/ api_key_set w = false ->
  generate_summary w input_data
  = mkAIOutput (template_summary input_data)
      (_build_what_you_might_miss (signals input_data)
         (detectedContext input_data) (_determine_severity input_data))
      (_build_actions (detectedContext input_data)
         (_determine_severity input_data) (signals input_data)).
Proof.
  intro H. unfold generate_summary, template_summary.
  replace (api_key_set w
           && mem (_determine_severity input_data) ["critical"; "high"])
    with false; [reflexivity|].
  destruct H as [H|H]; [|now rewrite H].
  destruct (determine_severity_cases input_data)
    as [[L E]|[[L E]|[[L E]|[L E]]]]; rewrite E; try lia;
    now rewrite andb_false_r.
Qed.

(** X4.  No enhancement is attempted for fewer than three concerns or
    without a configured key: the output is then the template output, the
    same in every world. *)
Theorem no_enhancement_below_high (w : World) (input_data : AIInput) :
  (concernCount input_data < 3)%Z \/ api_key_set w = false ->
  summary (generate_summary w input_data) = template_summary input_data
  /\ generate_summary w input_data = generate_summary offline input_data.
Proof.
  intro H. rewrite (no_call w input_data H).
  rewrite (no_call offline input_data) by (right; reflexivity).
  split; reflexivity.
Qed.

Lemma no_enhancement_below_high_witness :
  generate_summary (answering (Returned (mkResponse 200%Z EmptyString
                                           (Some (reply_with "Rewritten.")))))
    (mkAIInput "text" "hello" "consumer_message" [] None None 2%Z "low")
  = generate_summary offline
      (mkAIInput "text" "hello" "consumer_message" [] None None 2%Z "low").
Proof.
  apply (no_enhancement_below_high
           (answering (Returned (mkResponse 200%Z EmptyString
                                   (Some (reply_with "Rewritten.")))))
           (mkAIInput "text" "hello" "consumer_message" [] None None 2%Z
              "low")).
  left. reflexivity.
Defined.

Lemma shape_text (result : json) (text : string) :
  reply_shape result text ->
  has_key "candidates" result = Some true
  /\ candidate_text result = Some (strip text).
Proof.
  intros (top & cands & cand & content & parts & part
          & -> & Ha & Hc & Hd & Hf).
  unfold has_key, candidate_text, bind, item. rewrite Ha. cbn [item0].
  rewrite Hc, Hd. cbn [item0]. rewrite Hf. split; reflexivity.
Qed.

(** X5.  With a key configured and three concerns or more, a reply of
    status 200 and of the expected shape replaces the summary by its text
    stripped of surrounding white space, unless nothing is left of it, in
    which case the template summary stays. *)
Theorem enhancement_reply_replaces_summary
    (w : World) (input_data : AIInput) (response : Response)
    (result : json) (text : string) :
  api_key_set w = true ->
  (3 <= concernCount input_data)%Z ->
  enhancement_reply w input_data = Returned response ->
  status_code response = 200%Z ->
  json_body response = Some result ->
  reply_shape result text ->
  summary (generate_summary w input_data)
  = if truthy (strip text) then strip text else template_summary input_data.
Proof.
  intros K C R S B Sh. unfold generate_summary. cbn [summary].
  rewrite K.
  replace (mem (_determine_severity input_data) ["critical"; "high"])
    with true.
  2:{ destruct (determine_severity_cases input_data)
        as [[L E]|[[L E]|[[L E]|[L E]]]]; rewrite E; try lia; reflexivity. }
  cbn [andb]. unfold _enhance_with_gemini.
  unfold enhancement_reply, template_summary in R. rewrite R, S.
  cbn [Z.eqb Pos.eqb]. rewrite B.
  destruct (shape_text result text Sh) as [-> ->]. reflexivity.
Qed.

Lemma enhancement_reply_replaces_summary_witness :
  summary
    (generate_summary
       (answering (Returned (mkResponse 200%Z EmptyString
                               (Some (reply_with " Unfair terms. ")))))
       critical_input)
  = "Unfair terms.".
Proof.
  apply (enhancement_reply_replaces_summary
           (answering (Returned (mkResponse 200%Z EmptyString
                                   (Some (reply_with " Unfair terms. ")))))
           critical_input
           (mkResponse 200%Z EmptyString
              (Some (reply_with " Unfair terms. ")))
           (reply_with " Unfair terms. ") " Unfair terms. ");
    try reflexivity.
  - vm_compute. discriminate.
  - unfold reply_shape, reply_with.
    do 6 eexists. repeat split; reflexivity.
Defined.

(** X6.  The tier never falls and the score never rises when the concern
    count grows. *)
Theorem severity_is_monotone (input_a input_b : AIInput) :
  (concernCount input_a <= concernCount input_b)%Z ->
  tier_rank (_determine_severity input_a)
  <= tier_rank (_determine_severity input_b)
  /\ (snd (TrustLensEngine.severity_of (concernCount input_b))
      <= snd (TrustLensEngine.severity_of (concernCount input_a)))%Z.
Proof.
  intro H.
  destruct (determine_severity_cases input_a)
    as [[La Ea]|[[La Ea]|[[La Ea]|[La Ea]]]];
  destruct (determine_severity_cases input_b)
    as [[Lb Eb]|[[Lb Eb]|[[Lb Eb]|[Lb Eb]]]];
  rewrite Ea, Eb; try lia;
  destruct (EngineFacts.severity_of_cases (concernCount input_a))
    as [[Sa Fa]|[[Sa Fa]|[[Sa Fa]|[Sa Fa]]]];
  destruct (EngineFacts.severity_of_cases (concernCount input_b))
    as [[Sb Fb]|[[Sb Fb]|[[Sb Fb]|[Sb Fb]]]];
  try lia; rewrite Fa, Fb; cbn; split; lia.
Qed.

Lemma severity_is_monotone_witness :
  tier_rank (_determine_severity
               (mkAIInput "text" EmptyString "legal_agreement" [] None None 2%Z
              "low"))
  <= tier_rank (_determine_severity critical_input).
Proof.
  apply (severity_is_monotone
           (mkAIInput "text" EmptyString "legal_agreement" [] None None 2%Z
              "low")
           critical_input).
  simpl. lia.
Defined.

(** X7.  For a count that is not negative the tier is the first entry of
    [SEVERITY_CONFIG], read in order, whose threshold the count reaches;
    every tier the cascade returns has an entry there and a title in every
    family of [IMPACT_TITLES]. *)
Theorem severity_config_agrees (input_data : AIInput) :
  ((0 <= concernCount input_data)%Z ->
   option_map fst
     (find (fun e => (threshold (snd e) <=? concernCount input_data)%Z)
           SEVERITY_CONFIG)
   = Some (_determine_severity input_data))
  /\ In (_determine_severity input_data) (map fst SEVERITY_CONFIG)
  /\ (forall family,
        In family IMPACT_TITLES ->
        In (_determine_severity input_data) (map fst (snd family))).
Proof.
  destruct (determine_severity_cases input_data)
    as [[L E]|[[L E]|[[L E]|[L E]]]]; rewrite E;
    (split; [|split]).
  all: try (simpl; auto 6; fail).
  all: try (intros family H; simpl in H;
            destruct H as [<-|[<-|[<-|[]]]]; simpl; auto 6; fail).
  all: intro P; unfold SEVERITY_CONFIG; cbn [find snd threshold].
  all: repeat match goal with
         | |- context [(?a <=? ?b)%Z] =>
             destruct (Z.leb_spec a b); try lia; cbn [find snd threshold]
         end; reflexivity.
Qed.

Lemma severity_config_agrees_witness :
  option_map fst
    (find (fun e => (threshold (snd e) <=? concernCount critical_input)%Z)
          SEVERITY_CONFIG)
  = Some (_determine_severity critical_input).
Proof.
  apply (proj1 (severity_config_agrees critical_input)). simpl. lia.
Defined.

End NarrativeMore.

(** ** Shape of the narrative *)

Module NarrativeShape.
Import ai_generator TrustLensAI Spec Notions.

Lemma actions_length (context severity : string) (sigs : list Signal) :
  3 <= List.length (_build_actions context severity sigs) <= 5.
Proof.
  unfold _build_actions.
  destruct (context =? "legal_agreement"), (severity =? "critical"),
    (severity =? "high"),
    (mem context ["partnership_offer"; "vendor_proposal"]),
    (mem severity ["critical"; "high"]);
    simpl; lia.
Qed.

Lemma template_not_empty (sigs : list Signal) (context severity : string) :
  _build_compound_explanation sigs context severity <> EmptyString.
Proof.
  unfold _build_compound_explanation.
  destruct (severity =? "critical"); [discriminate|].
  destruct (severity =? "high"); [discriminate|].
  destruct (severity =? "moderate"); [|discriminate].
  destruct (filter is_risk sigs); discriminate.
Qed.

(** X8.  Whatever the world answers, an output has a summary and an
    explanation that are not empty and between three and five actions. *)
Theorem narrative_is_never_empty (w : World) (input_data : AIInput) :
  let out := generate_summary w input_data in
  summary out <> EmptyString
  /\ whatYouMightMiss out <> EmptyString
  /\ 3 <= List.length (actions out) <= 5.
Proof.
  cbv zeta. unfold generate_summary.
  cbn [summary whatYouMightMiss actions].
  split; [|split].
  - destruct (_ && _); [|apply template_not_empty].
    destruct (_enhance_with_gemini _ _ _ _) as [[|c e]|];
      cbn [truthy]; try apply template_not_empty. discriminate.
  - unfold _build_what_you_might_miss.
    destruct (_ =? _),
      (mem (_determine_severity input_data) ["critical"; "high"]),
      (mem (detectedContext input_data)
         ["partnership_offer"; "vendor_proposal"; "client_inquiry"]);
      discriminate.
  - apply actions_length.
Qed.

(** X9.  The narrative is chosen by context family.  Every context other
    than legal_agreement, partnership_offer and vendor_proposal, so
    client_inquiry too, gets the actions of a consumer message;
    partnership_offer, vendor_proposal and client_inquiry share one
    explanation, and every context outside these and legal_agreement gets
    the explanation of a consumer message.  The signals are not read. *)
Theorem narrative_families (context severity : string)
    (sigs sigs' : list Signal) :
  (context <> "legal_agreement" ->
   ~ In context ["partnership_offer"; "vendor_proposal"] ->
   _build_actions context severity sigs
   = _build_actions "consumer_message" severity sigs')
  /\ (In context ["partnership_offer"; "vendor_proposal"] ->
      _build_actions context severity sigs
      = _build_actions "partnership_offer" severity sigs')
  /\ (In context ["partnership_offer"; "vendor_proposal"; "client_inquiry"] ->
      _build_what_you_might_miss sigs context severity
      = _build_what_you_might_miss sigs' "partnership_offer" severity)
  /\ (context <> "legal_agreement" ->
      ~ In context ["partnership_offer"; "vendor_proposal"; "client_inquiry"] ->
      _build_what_you_might_miss sigs context severity
      = _build_what_you_might_miss sigs' "consumer_message" severity).
Proof.
  unfold _build_actions, _build_what_you_might_miss.
  repeat split.
  - intros N M. apply String.eqb_neq in N. apply mem_not_In in M.
    now rewrite N, M.
  - intro M. assert (N : context <> "legal_agreement")
      by (simpl in M; destruct M as [<-|[<-|[]]]; discriminate).
    apply String.eqb_neq in N. apply mem_In in M. now rewrite N, M.
  - intro M. assert (N : context <> "legal_agreement")
      by (simpl in M; destruct M as [<-|[<-|[<-|[]]]]; discriminate).
    apply String.eqb_neq in N. apply mem_In in M. now rewrite N, M.
  - intros N M. apply String.eqb_neq in N. apply mem_not_In in M.
    now rewrite N, M.
Qed.

Lemma narrative_families_witness :
  _build_actions "client_inquiry" "high" []
  = _build_actions "consumer_message" "high" []
  /\ _build_what_you_might_miss [] "client_inquiry" "high"
     = _build_what_you_might_miss [] "partnership_offer" "high".
Proof.
  destruct (narrative_families "client_inquiry" "high" [] [])
    as (A & _ & W & _).
  split; [apply A | apply W].
  - discriminate.
  - simpl. intros [H|[H|[]]]; discriminate H.
  - simpl. auto.
Defined.

Lemma summary_by_signals (w : World) (a b : AIInput) :
  signals a = signals b -> concernCount a = concernCount b ->
  summary (generate_summary w a) = summary (generate_summary w b).
Proof.
  destruct a, b; cbn [signals concernCount]. intros -> ->. reflexivity.
Qed.

(** X10.  The summary depends on the input through its signals and its
    concern count only; the whole output through these and the context:
    the input type, the original text, the two assessment fields and the
    tier the caller passes are never read. *)
Theorem output_depends_on_signals_count_context
    (w : World) (a b : AIInput) :
  signals a = signals b -> concernCount a = concernCount b ->
  summary (generate_summary w a) = summary (generate_summary w b)
  /\ (detectedContext a = detectedContext b ->
      generate_summary w a = generate_summary w b).
Proof.
  intros S C. split; [now apply summary_by_signals|].
  destruct a, b; cbn [signals concernCount detectedContext] in *.
  intros ->. subst. reflexivity.
Qed.

Lemma output_depends_on_signals_count_context_witness :
  generate_summary offline critical_input
  = generate_summary offline
      (mkAIInput "url" "other text" "legal_agreement"
         (signals critical_input) (Some []) None 7%Z "low").
Proof.
  apply (output_depends_on_signals_count_context offline critical_input
           (mkAIInput "url" "other text" "legal_agreement"
              (signals critical_input) (Some []) None 7%Z "low"));
    reflexivity.
Defined.

End NarrativeShape.

(** ** The compatibility endpoint *)

Module ApiMore.
Import Api Spec Notions.

Lemma try_by_signals (str_field : json -> option string) (w : World)
    (a b : AIGenerateRequest) :
  signals a = signals b ->
  generate_summary_try str_field w a = generate_summary_try str_field w b.
Proof.
  intro S. unfold generate_summary_try. rewrite S.
  destruct (convert_signals str_field (signals b)); [|reflexivity].
  reflexivity.
Qed.

(** X11.  The response of the endpoint depends on the request through its
    signal list only. *)
Theorem endpoint_reads_signals_only
    (str_field : json -> option string) (w : World)
    (a b : AIGenerateRequest) :
  signals a = signals b ->
  generate_summary str_field w a = generate_summary str_field w b.
Proof.
  intro S. unfold generate_summary.
  now rewrite (try_by_signals str_field w a b S).
Qed.

Lemma endpoint_reads_signals_only_witness :
  generate_summary strict_str offline good_request
  = generate_summary strict_str offline
      (mkAIGenerateRequest "url" "bye" "legal_agreement"
         (signals good_request) (Some []) None).
Proof.
  apply (endpoint_reads_signals_only strict_str offline good_request
           (mkAIGenerateRequest "url" "bye" "legal_agreement"
              (signals good_request) (Some []) None)).
  reflexivity.
Defined.

(** X12.  A request with fewer than three signals of category risk gets the
    same response in every world: no enhancement is attempted for it. *)
Theorem endpoint_without_enhancement
    (str_field : json -> option string) (w w' : World)
    (request : AIGenerateRequest) :
  List.length (filter category_is_risk (signals request)) < 3 ->
  generate_summary str_field w request
  = generate_summary str_field w' request.
Proof.
  intro H. unfold generate_summary, generate_summary_try.
  destruct (convert_signals str_field (signals request)); [|reflexivity].
  rewrite !NarrativeMore.no_call by (left; cbn; lia). reflexivity.
Qed.

Lemma endpoint_without_enhancement_witness :
  generate_summary strict_str
    (answering (Returned (mkResponse 200%Z EmptyString
                            (Some (reply_with "Rewritten.")))))
    good_request
  = generate_summary strict_str offline good_request.
Proof.
  apply (endpoint_without_enhancement strict_str
           (answering (Returned (mkResponse 200%Z EmptyString
                                   (Some (reply_with "Rewritten.")))))
           offline good_request).
  simpl. lia.
Defined.

(** X13.  Under a validation that takes strings as they are, a signal
    dictionary holding none of the six keys the endpoint reads, the empty
    one among them, converts to the signal made of the six defaults. *)
Theorem missing_keys_take_defaults
    (str_field : json -> option string) (sig : Dict) :
  accepts_strings str_field ->
  (Forall (fun key => dict_get key sig = None)
     ["id"; "category"; "title"; "explanation"; "ruleId"; "severity"] ->
   convert_signal str_field sig = Some default_signal)
  /\ convert_signal str_field [] = Some default_signal.
Proof.
  intro A. unfold accepts_strings in A.
  assert (G : Forall (fun key => dict_get key sig = None)
                ["id"; "category"; "title"; "explanation"; "ruleId";
                 "severity"] ->
              convert_signal str_field sig = Some default_signal).
  { intro F.
    repeat match goal with
           | H : Forall _ (_ :: _) |- _ => inversion H; subst; clear H
           end.
    unfold convert_signal, get_or, opt_str_field.
    repeat match goal with
           | H : dict_get _ sig = None |- _ => rewrite H; clear H
           end.
    rewrite !A. reflexivity. }
  split; [exact G|].
  unfold convert_signal, get_or, opt_str_field. cbn [dict_get].
  rewrite !A. reflexivity.
Qed.

Lemma missing_keys_take_defaults_witness :
  convert_signal strict_str [("note", JNum 1%Q)] = Some default_signal.
Proof.
  apply (proj1 (missing_keys_take_defaults strict_str [("note", JNum 1%Q)]
                  (fun s => eq_refl))).
  repeat constructor.
Defined.

End ApiMore.

(** ** Business assessments *)

Module AssessmentFacts.
Import Spec Notions.

Lemma priority_lists (sigs : list Signal) (context severity : string) :
  let r := assess_business_priority sigs context severity in
  bp_confidenceFactors r
  = or_placeholder (map name (filter is_green sigs))
      "Limited positive indicators"
  /\ concerns r
     = or_placeholder (map name (filter not_green sigs))
         "No specific concerns flagged".
Proof.
  cbv zeta. unfold assess_business_priority.
  match goal with
  | |- context [fold_left ?f sigs ([], [])] =>
      assert (F : forall l a b,
                fold_left f l (a, b)
                = (a ++ map name (filter is_green l),
                   b ++ map name (filter not_green l)))
  end.
  { induction l as [|s l IH]; intros a b; simpl.
    - now rewrite !app_nil_r.
    - unfold not_green, is_green.
      destruct (level s); simpl; rewrite IH; now rewrite <- ?app_assoc. }
  rewrite F. cbn [app].
  destruct (if mem severity _ then _ else _) as [[[a b] c] d].
  split; reflexivity.
Qed.

(** X14.  The confidence factors of a priority assessment are the names of
    the green signals, the concerns the names of the red and yellow ones,
    both in the order of the signals; a list that would be empty holds its
    placeholder instead, so neither is ever empty and every signal is named
    in one of them. *)
Theorem priority_lists_partition_signals
    (sigs : list Signal) (context severity : string) :
  let r := assess_business_priority sigs context severity in
  bp_confidenceFactors r
  = or_placeholder (map name (filter is_green sigs))
      "Limited positive indicators"
  /\ concerns r
     = or_placeholder (map name (filter not_green sigs))
         "No specific concerns flagged"
  /\ bp_confidenceFactors r <> [] /\ concerns r <> []
  /\ (forall s, In s sigs ->
        if is_green s then In (name s) (bp_confidenceFactors r)
        else In (name s) (concerns r)).
Proof.
  cbv zeta. destruct (priority_lists sigs context severity) as [-> ->].
  split; [reflexivity|]. split; [reflexivity|].
  assert (P : forall l p, or_placeholder l p <> [])
    by (intros [|x l] p; discriminate).
  split; [apply P|]. split; [apply P|].
  intros s H.
  assert (Q : forall (q : Signal -> bool) p,
            q s = true ->
            In (name s) (or_placeholder (map name (filter q sigs)) p)).
  { intros q p E.
    assert (I : In (name s) (map name (filter q sigs)))
      by (apply in_map, filter_In; auto).
    destruct (map name (filter q sigs)); [destruct I | exact I]. }
  destruct (is_green s) eqn:G; apply Q; [exact G|].
  unfold not_green. now rewrite G.
Qed.

(** X15.  Engagement is advised exactly when the tier is neither critical
    nor high, at least two signals are green and none is red; under a
    critical or high tier the verdict is low, ignore, unfavorable whatever
    the signals; the three verdict fields always move together. *)
Theorem priority_verdict (sigs : list Signal) (context severity : string) :
  let r := assess_business_priority sigs context severity in
  let verdict :=
    (strategicImportance r, attentionWorthiness r, riskToRewardBalance r) in
  (verdict = ("high", "engage", "favorable")
   <-> mem severity ["critical"; "high"] = false
       /\ (2 <= count_if is_green sigs)%Z /\ count_if is_red sigs = 0%Z)
  /\ (In severity ["critical"; "high"] ->
      verdict = ("low", "ignore", "unfavorable"))
  /\ In verdict
       [("high", "engage", "favorable"); ("medium", "monitor", "neutral");
        ("low", "ignore", "unfavorable")].
Proof.
  cbv zeta. unfold assess_business_priority.
  destruct (fold_left _ sigs ([], [])) as [cf cs].
  destruct (mem severity ["critical"; "high"]) eqn:M.
  - cbn. repeat split; intros; try discriminate; intuition discriminate.
  - assert (NI : ~ In severity ["critical"; "high"])
      by now apply mem_not_In.
    destruct (Z.geb_spec (count_if is_green sigs) 2) as [G|G];
      destruct (Z.eqb_spec (count_if is_red sigs) 0) as [R|R]; cbn [andb];
      try destruct (_ && _);
      cbn [strategicImportance attentionWorthiness riskToRewardBalance];
      (split; [split; [intro H; try discriminate H; repeat split; auto; lia
                      | intros (_ & G' & R'); try reflexivity; lia]
              |split; [intro H; now destruct (NI H) | simpl; auto]]).
Qed.

Lemma priority_verdict_witness :
  (strategicImportance
     (assess_business_priority [green "Known partner"; green "Verified site"]
        "partnership_offer" "low"),
   attentionWorthiness
     (assess_business_priority [green "Known partner"; green "Verified site"]
        "partnership_offer" "low"),
   riskToRewardBalance
     (assess_business_priority [green "Known partner"; green "Verified site"]
        "partnership_offer" "low"))
  = ("high", "engage", "favorable").
Proof.
  apply (proj1 (priority_verdict
                  [green "Known partner"; green "Verified site"]
                  "partnership_offer" "low")).
  vm_compute. repeat split; discriminate.
Defined.

(** X16.  The fields of a company assessment agree with one another: the
    track record is claimed, unverified or unknown exactly as the
    corporate-e-mail factor, the personal-provider flag or the no-e-mail
    flag is present, and the visibility is moderate or limited exactly as
    the social-media factor or the limited-presence flag is present; without
    a scrape, or after a failed one, the visibility is unknown. *)
Theorem company_assessment_is_coherent
    (content : string) (scraped : option Dict) :
  let r := assess_company content scraped in
  (trackRecord r = "claimed"
   <-> In "Corporate email domain" (ca_confidenceFactors r))
  /\ (trackRecord r = "unverified"
      <-> In "Using personal email provider" (flags r))
  /\ (trackRecord r = "unknown"
      <-> In "No corporate email provided" (flags r))
  /\ (visibility r = "moderate"
      <-> In "Active social media presence" (ca_confidenceFactors r))
  /\ (visibility r = "limited" <-> In "Limited online presence" (flags r))
  /\ In (visibility r) ["moderate"; "limited"; "unknown"]
  /\ (match scraped with
      | None => True
      | Some d => truthy_json (dict_get "success" d) = false
      end -> visibility r = "unknown").
Proof.
  cbv zeta. unfold assess_company.
  destruct (Re.search Patterns.corp_email_re content) as [m|];
    [destruct (negb (mem (WebsiteScraper.group_1 m) personal_providers))|];
    destruct (Re.findall Patterns.company_pattern_re content);
    (destruct scraped as [d|];
     [destruct (truthy_json (Some (JObj d)));
      destruct (truthy_json (dict_get "success" d));
      destruct (truthy_json (dict_get "social_links" d))|]);
    cbn; repeat split; intros; auto 6; try discriminate;
    try (exfalso;
         repeat match goal with H : _ \/ _ |- _ => destruct H end;
         try discriminate; contradiction).
Qed.

Lemma company_assessment_is_coherent_witness :
  visibility (assess_company "hello" (Some (WebsiteScraper.failure "down")))
  = "unknown".
Proof.
  destruct (company_assessment_is_coherent "hello"
              (Some (WebsiteScraper.failure "down")))
    as (_ & _ & _ & _ & _ & _ & H).
  apply H. reflexivity.
Defined.

End AssessmentFacts.

(** ** What an analysis depends on, and what it can report *)

Module AnalysisMore.
Import TrustLensEngine EngineFacts Spec Notions.

Lemma narrative_count (content content_type : string) :
  ai_generator.concernCount (narrative_input content content_type)
  = count_if is_red
      (run_rules content content_type (detect_context content content_type)).
Proof. reflexivity. Qed.

(** X18.  The enhancement service is consulted for legal agreements only:
    in every other context the result is the same whatever key is
    configured and whatever the service would answer. *)
Theorem enhancement_only_for_legal_agreement
    (w : World) (key : option string) (post : string -> json -> outcome)
    (content content_type : string) :
  detect_context content content_type <> "legal_agreement" ->
  analyze (with_enhancer w key post) content content_type
  = analyze w content content_type.
Proof.
  intro N. rewrite !analyze_unfold; cbv zeta.
  pose proof (EngineMore.concerns_outside_legal content content_type N) as L.
  rewrite <- narrative_count in L.
  rewrite (NarrativeMore.no_call (with_enhancer w key post) _ (or_introl L)).
  rewrite (NarrativeMore.no_call w _ (or_introl L)).
  reflexivity.
Qed.

Lemma enhancement_only_for_legal_agreement_witness :
  analyze (with_enhancer offline (Some "k")
             (fun _ _ => Returned (mkResponse 200%Z EmptyString
                                     (Some (reply_with "Rewritten.")))))
    urgent_partnership "text"
  = analyze offline urgent_partnership "text".
Proof.
  apply (enhancement_only_for_legal_agreement offline (Some "k")
           (fun _ _ => Returned (mkResponse 200%Z EmptyString
                                   (Some (reply_with "Rewritten."))))
           urgent_partnership "text").
  vm_compute. discriminate.
Defined.

Lemma filter_all {A : Type} (p : A -> bool) (xs : list A) :
  Forall (fun x => p x = true) xs -> filter p xs = xs.
Proof.
  induction 1 as [|x xs H _ IH]; simpl; [reflexivity|].
  now rewrite H, IH.
Qed.

Lemma filter_none {A : Type} (p : A -> bool) (xs : list A) :
  Forall (fun x => p x = false) xs -> filter p xs = [].
Proof.
  induction 1 as [|x xs H _ IH]; simpl; [reflexivity|]. now rewrite H.
Qed.

Lemma concern_tests (sigs : list Signal) :
  Forall concern sigs ->
  Forall (fun s => not_green s = true) sigs
  /\ Forall (fun s => is_green s = false) sigs.
Proof.
  intro H. split; (eapply Forall_impl; [|exact H]); intros s [C|C];
    unfold not_green, is_green; now rewrite C.
Qed.

Lemma priority_without_green (sigs : list Signal)
    (context severity : string) :
  Forall concern sigs -> mem severity ["critical"; "high"] = false ->
  assess_business_priority sigs context severity
  = mkBusinessPriority "low" "ignore" "unfavorable"
      "Does not merit significant time investment"
      ["Limited positive indicators"]
      (or_placeholder (map name sigs) "No specific concerns flagged").
Proof.
  intros C M.
  pose proof (AssessmentFacts.priority_lists sigs context severity) as [F G].
  cbv zeta in F, G.
  destruct (concern_tests sigs C) as [NG IG].
  rewrite (filter_none _ _ IG) in F. rewrite (filter_all _ _ NG) in G.
  revert F G. unfold assess_business_priority.
  rewrite M, (EngineMore.not_green_count sigs C).
  cbn [Z.geb Z.compare andb].
  destruct (fold_left _ sigs ([], [])) as [cf cs].
  cbn [bp_confidenceFactors concerns]. now intros -> ->.
Qed.

(** X19.  For a business context the priority assessment of a result is
    always low, ignore, unfavorable with the recommendation not to invest
    time and the placeholder for confidence factors: the rules emit no green
    signal and the tier there is never high or critical.  Its concerns are
    the names of the signals of the result. *)
Theorem analyze_priority_is_always_low
    (w : World) (content content_type : string) :
  let r := analyze w content content_type in
  In (detectedContext r)
     ["partnership_offer"; "client_inquiry"; "vendor_proposal"] ->
  businessPriority r
  = Some (mkBusinessPriority "low" "ignore" "unfavorable"
            "Does not merit significant time investment"
            ["Limited positive indicators"]
            (or_placeholder (map name (signals r))
               "No specific concerns flagged")).
Proof.
  cbv zeta. rewrite analyze_unfold; cbv zeta.
  cbn [detectedContext businessPriority signals]. intro B.
  pose proof (EngineMore.business_not_legal _ B) as N.
  apply mem_In in B. rewrite B. f_equal.
  apply priority_without_green; [apply EngineMore.signals_concern|].
  pose proof (EngineMore.concerns_outside_legal content content_type N) as L.
  destruct (EngineMore.severity_below_three _ L) as [-> | ->]; reflexivity.
Qed.

Lemma analyze_priority_is_always_low_witness :
  option_map strategicImportance
    (businessPriority (analyze offline urgent_partnership "text"))
  = Some "low".
Proof.
  rewrite (analyze_priority_is_always_low offline urgent_partnership "text").
  - reflexivity.
  - vm_compute. auto.
Defined.

Lemma tier_agrees (input_data : ai_generator.AIInput) :
  fst (fst (severity_of (ai_generator.concernCount input_data)))
  = TrustLensAI._determine_severity input_data.
Proof.
  unfold severity_of, TrustLensAI._determine_severity.
  destruct (_ >=? 6)%Z; [reflexivity|].
  destruct (_ >=? 3)%Z; [reflexivity|].
  destruct (_ >=? 1)%Z; reflexivity.
Qed.

Lemma risk_titles (k : nat) (sigs : list Signal) :
  map ai_generator.title
    (filter TrustLensAI.is_risk
       (map (fun '(i, s) => ai_signal i s) (enumerate_from k sigs)))
  = map name (filter is_red sigs).
Proof.
  revert k; induction sigs as [|s sigs IH]; intro k; [reflexivity|].
  cbn [enumerate_from map filter].
  replace (TrustLensAI.is_risk (ai_signal k s)) with (is_red s)
    by (unfold TrustLensAI.is_risk, ai_signal, is_red; cbn;
        now destruct (level s)).
  destruct (is_red s); cbn [map]; now rewrite IH.
Qed.

Lemma moderate_template (sigs : list ai_generator.Signal) (context : string) :
  filter TrustLensAI.is_risk sigs <> [] ->
  TrustLensAI._build_compound_explanation sigs context "moderate"
  = moderate_summary
      (map ai_generator.title (filter TrustLensAI.is_risk sigs)).
Proof.
  intro H. unfold TrustLensAI._build_compound_explanation, moderate_summary.
  cbn [String.eqb Ascii.eqb Bool.eqb].
  destruct (filter TrustLensAI.is_risk sigs) as [|x l] eqn:E;
    [now destruct H|].
  now rewrite length_map, firstn_map.
Qed.

(** X20.  In every world, a result with no concern carries the fixed
    no-risk summary, and a result with one or two concerns the summary that
    gives their number and the names of the red signals, in order. *)
Theorem analyze_summary_below_high
    (w : World) (content content_type : string) :
  let r := analyze w content content_type in
  let reds := map name (filter is_red (signals r)) in
  Z.of_nat (List.length reds) = concernCount r
  /\ (concernCount r = 0%Z -> summary r = low_summary)
  /\ ((1 <= concernCount r <= 2)%Z -> summary r = moderate_summary reds).
Proof.
  cbv zeta. rewrite analyze_unfold; cbv zeta.
  cbn [signals concernCount summary].
  set (sigs := run_rules content content_type
                 (detect_context content content_type)).
  rewrite length_map, <- count_if_filter.
  split; [reflexivity|].
  assert (T : (count_if is_red sigs < 3)%Z ->
              ai_generator.summary
                (TrustLensAI.generate_summary w
                   (narrative_input content content_type))
              = TrustLensAI._build_compound_explanation
                  (ai_generator.signals
                     (narrative_input content content_type))
                  (detect_context content content_type)
                  (fst (fst (severity_of (count_if is_red sigs))))).
  { intro L. rewrite NarrativeMore.no_call by (left; exact L).
    cbn [ai_generator.summary]. unfold template_summary.
    f_equal. symmetry.
    exact (tier_agrees (narrative_input content content_type)). }
  split; intro H.
  - rewrite T by lia. rewrite H. reflexivity.
  - rewrite T by lia.
    destruct (severity_of_cases (count_if is_red sigs))
      as [[B E]|[[B E]|[[B E]|[B E]]]]; try lia.
    rewrite E. cbn [fst].
    assert (R : map ai_generator.title
                  (filter TrustLensAI.is_risk
                     (ai_generator.signals
                        (narrative_input content content_type)))
                = map name (filter is_red sigs))
      by apply risk_titles.
    rewrite moderate_template; [now rewrite R|].
    intro Z0. rewrite Z0 in R. cbn [map] in R.
    rewrite count_if_filter in B.
    assert (List.length (map name (filter is_red sigs)) = 0)
      by now rewrite <- R.
    rewrite length_map in *. lia.
Qed.

Lemma analyze_summary_below_high_witness :
  summary (analyze offline two_clause_terms "text")
  = moderate_summary
      ["Binding Arbitration & Rights Waiver"; "Data Monetization Rights"].
Proof.
  destruct (analyze_summary_below_high offline two_clause_terms "text")
    as (_ & _ & H).
  rewrite H; [reflexivity | vm_compute; split; discriminate].
Defined.

Lemma low_bucket (context severity : string)
    (sigs sigs' : list ai_generator.Signal) :
  context <> "legal_agreement" ->
  severity = "moderate" \/ severity = "low" ->
  TrustLensAI._build_what_you_might_miss sigs context severity
  = TrustLensAI._build_what_you_might_miss sigs' context "low"
  /\ TrustLensAI._build_actions context severity sigs
     = TrustLensAI._build_actions context "low" sigs'
  /\ List.length (TrustLensAI._build_actions context "low" sigs') = 3.
Proof.
  intros N S. apply String.eqb_neq in N.
  unfold TrustLensAI._build_what_you_might_miss, TrustLensAI._build_actions.
  rewrite N.
  destruct S as [-> | ->];
    destruct (mem context ["partnership_offer"; "vendor_proposal"]);
    repeat split.
Qed.

(** X17.  Outside legal_agreement the narrative of a result is always the
    one of the low tier of its context: the explanation and the three
    actions written for a critical or high tier of a business or consumer
    context are never returned by an analysis. *)
Theorem narrative_outside_legal_is_low_tier
    (w : World) (content content_type : string) :
  let r := analyze w content content_type in
  detectedContext r <> "legal_agreement" ->
  whatYouMightMiss r
  = TrustLensAI._build_what_you_might_miss [] (detectedContext r) "low"
  /\ recommendedActions r
     = TrustLensAI._build_actions (detectedContext r) "low" []
  /\ List.length (recommendedActions r) = 3.
Proof.
  cbv zeta. rewrite analyze_unfold; cbv zeta.
  cbn [detectedContext whatYouMightMiss recommendedActions]. intro N.
  pose proof (EngineMore.concerns_outside_legal content content_type N) as L.
  rewrite NarrativeMore.no_call by (left; exact L).
  cbn [ai_generator.whatYouMightMiss ai_generator.actions].
  rewrite <- tier_agrees.
  destruct (low_bucket (detect_context content content_type)
              (fst (fst (severity_of
                 (ai_generator.concernCount
                    (narrative_input content content_type)))))
              (ai_generator.signals (narrative_input content content_type))
              [] N (EngineMore.severity_below_three _ L)) as (A & B & C).
  cbn [ai_generator.detectedContext narrative_input ai_input_of].
  change (ai_generator.detectedContext
            (narrative_input content content_type))
    with (detect_context content content_type) in *.
  rewrite A, B. repeat split. exact C.
Qed.

Lemma narrative_outside_legal_is_low_tier_witness :
  List.length (recommendedActions (analyze offline urgent_partnership "text"))
  = 3.
Proof.
  apply (narrative_outside_legal_is_low_tier offline urgent_partnership
           "text").
  vm_compute. discriminate.
Defined.

End AnalysisMore.

(** ** The scraper *)

Module ScraperFacts.
Import Re WebsiteScraper TrustLensEngine EngineFacts Spec Notions.

(** X21.  A scrape succeeds exactly when a key is configured and the
    service answers with status 200; a success holds the seven keys, a
    failure holds only the flag and an error message: the fixed one when no
    key is configured, whatever the network would do, and the message of the
    exception when the client raises. *)
Theorem scrape_outcome (w : World) (url : string) :
  let d := scrape w url in
  let ok := truthy_json (dict_get "success" d) in
  (ok = true
   <-> truthy (SCRAPE_DO_API_KEY w) = true
       /\ exists r,
            http_get w (scrape_request w url) = Returned r
            /\ status_code r = 200%Z)
  /\ (ok = true -> map fst d = scrape_keys)
  /\ (ok = false -> exists msg, d = failure msg)
  /\ (truthy (SCRAPE_DO_API_KEY w) = false ->
      d = failure "SCRAPE_DO_API_KEY not set")
  /\ (forall msg,
        truthy (SCRAPE_DO_API_KEY w) = true ->
        http_get w (scrape_request w url) = Raised msg -> d = failure msg).
Proof.
  cbv zeta. unfold scrape, scrape_request.
  destruct (truthy (SCRAPE_DO_API_KEY w)); cbn [negb].
  2:{ repeat split; intros; try discriminate; eauto.
      destruct H as [H _]. discriminate. }
  destruct (http_get w _) as [e|r].
  - repeat split; intros; try discriminate; eauto.
    + destruct H as (_ & r & H & _). discriminate.
    + now injection H0 as ->.
  - destruct (Z.eqb_spec (status_code r) 200) as [E|E]; cbn [negb].
    + repeat split; intros; try discriminate; eauto.
    + repeat split; intros; try discriminate; eauto.
      destruct H as (_ & r' & H & S). injection H as <-. contradiction.
Qed.

Lemma scrape_outcome_witness :
  map fst (scrape (serving linked_page) "https://acme.io") = scrape_keys.
Proof.
  apply (scrape_outcome (serving linked_page) "https://acme.io").
  reflexivity.
Defined.

Lemma leading_literal_fails {A : Type} (r : regex) (p : string)
    (cur : cursor) (k : cursor -> option A) :
  leading_literal r = Some p -> drop_prefix p (rest cur) = None ->
  run r cur k = None.
Proof.
  revert cur k; induction r; intros cur k L D; try discriminate L;
    cbn [leading_literal] in L; cbn [run].
  - injection L as ->. now rewrite D.
  - now apply IHr1.
  - now apply IHr.
Qed.

Lemma star_to_the_end {A : Type} (p : ascii -> bool) (h tail : string)
    (b : option ascii) (g : option string) (k : cursor -> option A)
    (x : A) :
  (forall c, In c (list_ascii_of_string h) -> p c = true) ->
  (tail = EmptyString \/ exists c t, tail = String c t /\ p c = false) ->
  k (Cursor (last_char h b) tail g) = Some x ->
  star p b (h ++ tail) g k = Some x.
Proof.
  revert b; induction h as [|a h IH]; intros b H T K; cbn in *.
  - destruct T as [->|(c & t & -> & P)]; cbn; [exact K|].
    now rewrite P.
  - rewrite (H a (or_introl eq_refl)).
    rewrite (IH (Some a)); auto.
Qed.

Lemma no_match_without_literal (r : regex) (p : string) (s : string) :
  leading_literal r = Some p -> contains p s = false ->
  forall b, search_from r b s = None.
Proof.
  intros L. induction s as [|c s IH]; intros C b; cbn [contains] in C.
  - destruct (drop_prefix p EmptyString) eqn:D; [discriminate|].
    cbn [search_from]. unfold match_at.
    now rewrite (leading_literal_fails r p (Cursor b EmptyString None) _ L D).
  - destruct (drop_prefix p (String c s)) eqn:D; [discriminate|].
    cbn [search_from]. unfold match_at.
    rewrite (leading_literal_fails r p (Cursor b (String c s) None) _ L D).
    now apply IH.
Qed.

Lemma take_app (a b : string) : take (String.length a) (a ++ b) = a.
Proof. induction a as [|c a IH]; cbn; [now destruct b | now rewrite IH]. Qed.

Lemma length_append (a b : string) :
  String.length (a ++ b) = String.length a + String.length b.
Proof. induction a as [|c a IH]; cbn; [reflexivity | now rewrite IH]. Qed.

Lemma consumed_app (a b : string) : consumed (a ++ b) b = a.
Proof.
  unfold consumed.
  replace (String.length (a ++ b) - String.length b) with (String.length a).
  - apply take_app.
  - rewrite length_append. lia.
Qed.

Lemma no_slash_chars (host : string) :
  no_slash host ->
  forall c, In c (list_ascii_of_string host) -> not_slash c = true.
Proof.
  unfold no_slash, not_slash, chr.
  induction host as [|a host IH]; intros H c I; [destruct I|].
  cbn [contains drop_prefix] in H.
  destruct (Ascii.eqb "/" a) eqn:E; [discriminate|].
  destruct I as [<-|I]; [now rewrite E | now apply IH].
Qed.

Lemma domain_of (scheme host tail : string) :
  scheme = "https://" \/ scheme = "http://" ->
  host <> EmptyString -> no_slash host ->
  (tail = EmptyString \/ exists p, tail = String "/" p) ->
  _extract_domain (scheme ++ host ++ tail) = host.
Proof.
  intros S N H T. destruct host as [|h host]; [now destruct N|].
  pose proof (no_slash_chars _ H) as C.
  assert (T' : tail = EmptyString
               \/ exists c t, tail = String c t /\ not_slash c = false).
  { destruct T as [->|[p ->]]; [now left|]. right. now exists "/"%char, p. }
  unfold _extract_domain, search, domain_re.
  assert (M : exists g0 cur,
            search_from
              (Lit "http" >> Opt (Lit "s") >> Lit "://"
               >> Group (Plus not_slash))%re
              None (scheme ++ String h host ++ tail)
            = Some (Match g0 (Some (String h host)) cur)).
  { destruct S as [-> | ->]; cbn [append search_from]; unfold match_at;
      cbn [run drop_prefix Ascii.eqb Bool.eqb rest before group1 last_char
           or_else];
      rewrite (C h (or_introl eq_refl));
      erewrite (star_to_the_end not_slash host tail);
      [eexists; eexists; reflexivity | | | |
       eexists; eexists; reflexivity | | | ];
      try (intros c I; apply C; now right); try exact T';
      cbn [rest before];
      change (String h (host ++ tail)) with (String h host ++ tail)%string;
      rewrite consumed_app; reflexivity. }
  destruct M as (g0 & cur & ->). reflexivity.
Qed.

(** X22.  The domain of an address made of the scheme http or https, a
    host without a slash and nothing or a path behind it is the host; an
    address that holds no http is returned as it is. *)
Theorem extract_domain_round_trip (host tail : string) :
  host <> EmptyString -> no_slash host ->
  (tail = EmptyString \/ exists p, tail = String "/" p) ->
  _extract_domain ("https://" ++ host ++ tail) = host
  /\ _extract_domain ("http://" ++ host ++ tail) = host
  /\ (forall url, contains "http" url = false -> _extract_domain url = url).
Proof.
  intros N H T. split; [|split].
  - apply domain_of; auto.
  - apply domain_of; auto.
  - intros url C. unfold _extract_domain, search.
    now rewrite (no_match_without_literal domain_re "http" url eq_refl C).
Qed.

Lemma extract_domain_round_trip_witness :
  _extract_domain "https://acme.io/pricing?plan=1" = "acme.io".
Proof.
  apply (extract_domain_round_trip "acme.io" "/pricing?plan=1").
  - discriminate.
  - reflexivity.
  - right. eexists. reflexivity.
Defined.

Lemma no_url_no_scrape (w : World) (content : string) :
  contains "http" content = false -> scraped_of w content = None.
Proof.
  intro C. unfold scraped_of, findall. cbn [findall_from].
  now rewrite (no_match_without_literal Patterns.url_re "http" content
                 eq_refl C).
Qed.

(** X23.  A content that holds no http is analysed without any request to
    the scrape service: the result is the same whatever scrape key is
    configured and whatever the service would answer. *)
Theorem no_scrape_without_url
    (w : World) (key : string) (get : string -> outcome)
    (content content_type : string) :
  contains "http" content = false ->
  analyze (with_scraper w key get) content content_type
  = analyze w content content_type.
Proof.
  intro C. rewrite !analyze_unfold; cbv zeta.
  rewrite !(no_url_no_scrape _ content C). reflexivity.
Qed.

Lemma no_scrape_without_url_witness :
  analyze (with_scraper offline "k"
             (fun _ => Returned (mkResponse 200%Z linked_page None)))
    urgent_partnership "text"
  = analyze offline urgent_partnership "text".
Proof.
  apply (no_scrape_without_url offline "k"
           (fun _ => Returned (mkResponse 200%Z linked_page None))
           urgent_partnership "text").
  reflexivity.
Defined.

Lemma scraped_without_key (w : World) (content : string) :
  truthy (SCRAPE_DO_API_KEY w) = false ->
  scraped_of w content = None
  \/ scraped_of w content = Some (failure "SCRAPE_DO_API_KEY not set").
Proof.
  intro K. unfold scraped_of.
  destruct (findall Patterns.url_re content); [now left|right].
  unfold scrape. now rewrite K.
Qed.

(** X24.  Without a scrape key no page is requested, and the visibility of
    every company assessment is unknown. *)
Theorem no_key_no_visibility
    (w : World) (get : string -> outcome) (content content_type : string) :
  truthy (SCRAPE_DO_API_KEY w) = false ->
  analyze (with_scraper w (SCRAPE_DO_API_KEY w) get) content content_type
  = analyze w content content_type
  /\ (forall a,
        companyAssessment (analyze w content content_type) = Some a ->
        visibility a = "unknown").
Proof.
  intro K. rewrite !analyze_unfold; cbv zeta. split.
  - assert (E : scraped_of (with_scraper w (SCRAPE_DO_API_KEY w) get) content
                = scraped_of w content).
    { unfold scraped_of.
      destruct (findall Patterns.url_re content); [reflexivity|].
      unfold scrape. cbn [SCRAPE_DO_API_KEY with_scraper].
      now rewrite K. }
    rewrite E. reflexivity.
  - cbn [companyAssessment]. intros a.
    destruct (mem _ _); [|discriminate]. intro H. injection H as <-.
    destruct (scraped_without_key w content K) as [-> | ->];
      unfold assess_company;
      destruct (search Patterns.corp_email_re content) as [m|];
      [destruct (negb (mem (group_1 m) personal_providers))| |
       destruct (negb (mem (group_1 m) personal_providers))|];
      destruct (findall Patterns.company_pattern_re content); reflexivity.
Qed.

Lemma no_key_no_visibility_witness :
  option_map visibility
    (companyAssessment (analyze offline vendor_note "text"))
  = Some "unknown".
Proof.
  destruct (no_key_no_visibility offline (fun _ => Raised "offline")
              vendor_note "text" eq_refl) as [_ H].
  destruct (companyAssessment (analyze offline vendor_note "text")) as [a|]
    eqn:E; [|vm_compute in E; discriminate E].
  cbn [option_map]. now rewrite (H a eq_refl).
Defined.

End ScraperFacts.

(** ** The context detector *)

Module ContextMore.
Import Spec Notions ContextFacts.

(** X25.  The decision table of the detector: legal_agreement exactly when
    the legal test holds; partnership_offer, client_inquiry and
    vendor_proposal exactly when their test is the first one to hold; a
    text that mentions a contract is never a vendor_proposal. *)
Theorem detect_context_decision_table (content content_type : string) :
  let context := detect_context content content_type in
  (context = "legal_agreement" <-> legal_test content = true)
  /\ (context = "partnership_offer"
      <-> legal_test content = false /\ partnership_test content = true)
  /\ (context = "client_inquiry"
      <-> legal_test content = false /\ partnership_test content = false
          /\ client_test content = true)
  /\ (context = "vendor_proposal"
      <-> legal_test content = false /\ partnership_test content = false
          /\ client_test content = false /\ vendor_test content = true)
  /\ (mentions content "contract" -> context <> "vendor_proposal").
Proof.
  cbv zeta. rewrite detect_context_branches.
  assert (V : mentions content "contract" -> vendor_test content = false).
  { unfold mentions, vendor_test. intros ->. apply andb_false_r. }
  destruct (legal_test content), (partnership_test content),
    (client_test content), (vendor_test content), (employment_test content);
    repeat split; intros; try reflexivity; try discriminate;
    try (specialize (V H); discriminate);
    repeat match goal with H : _ /\ _ |- _ => destruct H end;
    discriminate.
Qed.

Lemma detect_context_decision_table_witness :
  detect_context "Vendor pricing under the master contract" "text"
  <> "vendor_proposal".
Proof.
  apply (detect_context_decision_table
           "Vendor pricing under the master contract" "text").
  reflexivity.
Defined.

Lemma lower_char_twice (c : ascii) : lower_char (lower_char c) = lower_char c.
Proof. destruct c as [[] [] [] [] [] [] [] []]; reflexivity. Qed.

Lemma lower_twice (s : string) : lower (lower s) = lower s.
Proof.
  induction s as [|c s IH]; cbn [lower]; [reflexivity|].
  now rewrite lower_char_twice, IH.
Qed.

(** X26.  The detector, the legal-clause rule and the high-pressure rule
    look at the lower-cased text only: two texts that differ by letter case
    get the same context and the same signals of these rules, and so does a
    text and its lower-cased form. *)
Theorem classification_ignores_letter_case
    (content content_type context : string) :
  (forall other,
     lower other = lower content ->
     detect_context other content_type = detect_context content content_type
     /\ LegalClauseRule.evaluate_all other context
        = LegalClauseRule.evaluate_all content context
     /\ HighPressurePatternRule.evaluate other content_type context
        = HighPressurePatternRule.evaluate content content_type context)
  /\ detect_context (lower content) content_type
     = detect_context content content_type
  /\ LegalClauseRule.evaluate_all (lower content) context
     = LegalClauseRule.evaluate_all content context
  /\ HighPressurePatternRule.evaluate (lower content) content_type context
     = HighPressurePatternRule.evaluate content content_type context.
Proof.
  assert (G : forall other,
            lower other = lower content ->
            detect_context other content_type
            = detect_context content content_type
            /\ LegalClauseRule.evaluate_all other context
               = LegalClauseRule.evaluate_all content context
            /\ HighPressurePatternRule.evaluate other content_type context
               = HighPressurePatternRule.evaluate content content_type
                   context).
  { intros other E.
    unfold detect_context, LegalClauseRule.evaluate_all,
      HighPressurePatternRule.evaluate.
    rewrite E. repeat split. }
  split; [exact G|]. apply G, lower_twice.
Qed.

Lemma classification_ignores_letter_case_witness :
  detect_context "TERMS OF SERVICE" "text"
  = detect_context "Terms of Service" "text".
Proof.
  apply (proj1 (classification_ignores_letter_case
                  "Terms of Service" "text" "legal_agreement")).
  reflexivity.
Defined.

End ContextMore.

(** ** Names and identifiers of the signals *)

Module NamingFacts.
Import TrustLensEngine EngineFacts Spec Notions.


Lemma NoDup_map_filter {A B : Type} (f : A -> B) (p : A -> bool)
    (xs : list A) :
  NoDup (map f xs) -> NoDup (map f (filter p xs)).
Proof.
  induction xs as [|x xs IH]; simpl; intro H; [constructor|].
  inversion H as [|y l N D]; subst.
  destruct (p x); [|now apply IH].
  simpl. constructor; [|now apply IH].
  intro I. apply N. apply in_map_iff in I. destruct I as (z & E & I).
  apply in_map_iff. exists z. split; [exact E|].
  apply filter_In in I. tauto.
Qed.

Lemma NoDup_app_apart {A : Type} (l1 l2 : list A) :
  NoDup (l1 ++ l2) -> forall x, In x l1 -> ~ In x l2.
Proof.
  induction l1 as [|a l1 IH]; simpl; intros H x I; [destruct I|].
  inversion H as [|y l N D]; subst.
  destruct I as [<-|I]; [|now apply IH].
  intro J. apply N, in_or_app. now right.
Qed.

Lemma clause_names_distinct : NoDup (clause_names ++ other_names).
Proof.
  unfold clause_names, other_names. cbn.
  repeat (constructor; [cbn; intuition discriminate|]). constructor.
Qed.

Lemma legal_names (content context : string) :
  NoDup (map name (LegalClauseRule.evaluate_all content context))
  /\ incl (map name (LegalClauseRule.evaluate_all content context))
          clause_names.
Proof.
  destruct (string_dec context "legal_agreement") as [->|N].
  - rewrite RuleFacts.evaluate_all_legal, map_map.
    assert (E : forall l,
              map (fun t => name (signal_of_clause t)) l
              = map (fun t : Re.regex * string * string => snd (fst t)) l).
    { intro l. apply map_ext. now intros [[p n] s]. }
    rewrite E. split.
    + apply NoDup_map_filter.
      exact (NoDup_app_remove_r _ _ clause_names_distinct).
    + intros x I. apply in_map_iff in I. destruct I as (t & <- & I).
      apply filter_In in I. unfold clause_names.
      apply (in_map (fun t : Re.regex * string * string => snd (fst t))).
      tauto.
  - rewrite (EngineMore.evaluate_all_elsewhere _ _ N).
    split; [constructor | intros x []].
Qed.

(** X28.  No two signals of a result bear the same name. *)
Theorem signal_names_are_distinct
    (w : World) (content content_type : string) :
  NoDup (map name (signals (analyze w content content_type))).
Proof.
  destruct (EngineMore.analyze_signals w content content_type) as [-> _].
  set (context := detect_context content content_type).
  rewrite EngineMore.run_rules_parts, !map_app.
  destruct (legal_names content context) as [NL IL].
  pose proof clause_names_distinct as D.
  assert (P : incl (map name (emitted (HighPressurePatternRule.evaluate
                                         content content_type context)))
                   ["Predatory Pressure Pattern"; "High-Pressure Tactics"]).
  { destruct (HighPressurePatternRule.evaluate _ _ _) as [s|] eqn:E;
      [|intros x []].
    intros x [<-|[]]. exact (proj2 (EngineMore.pressure_red _ _ _ _ E)). }
  assert (V : incl (map name (emitted (VerifiabilityRule.evaluate
                                         content content_type context)))
                   ["Zero Verifiable Identity"; "Limited Verifiability"]).
  { destruct (VerifiabilityRule.evaluate _ _ _) as [s|] eqn:E;
      [|intros x []].
    intros x [<-|[]].
    exact (proj2 (EngineMore.verifiability_concern _ _ _ _ E)). }
  assert (one : forall o : option Signal, NoDup (map name (emitted o))).
  { intros [s|]; simpl; repeat constructor. intros []. }
  apply NoDup_app; [exact NL | apply NoDup_app; auto |].
  - intros x Ix Iy. apply P in Ix. apply V in Iy.
    simpl in Ix, Iy.
    destruct Ix as [<-|[<-|[]]]; destruct Iy as [Y|[Y|[]]];
      discriminate Y.
  - intros x Ix Iy. apply IL in Ix.
    assert (Io : In x other_names).
    { apply in_app_or in Iy. destruct Iy as [Iy|Iy];
        [apply P in Iy | apply V in Iy]; unfold other_names;
        simpl in *; tauto. }
    exact (NoDup_app_apart _ _ D x Ix Io).
Qed.

End NamingFacts.

(** ** Edge cases *)

Module EdgeFacts.
Import TrustLensEngine EngineFacts Spec Notions.

(** X29.  The empty content is, in every world and for every content type,
    a consumer_message of low risk: no signal, score 80, the no-risk
    summary, three actions, no business assessment, and no request to
    either service. *)
Theorem analyze_empty_content (w : World) (content_type : string) :
  let r := analyze w EmptyString content_type in
  r = analyze offline EmptyString content_type
  /\ detectedContext r = "consumer_message"
  /\ signals r = [] /\ concernCount r = 0%Z
  /\ severityLevel r = "low" /\ overall_score r = 80%Z
  /\ summary r = low_summary
  /\ List.length (recommendedActions r) = 3
  /\ businessPriority r = None /\ companyAssessment r = None.
Proof.
  cbv zeta.
  assert (E : analyze w EmptyString content_type
              = analyze offline EmptyString content_type).
  { rewrite !analyze_unfold; cbv zeta.
    rewrite (NarrativeMore.no_call w) by (left; reflexivity).
    rewrite (NarrativeMore.no_call offline) by (left; reflexivity).
    reflexivity. }
  rewrite E. repeat split.
Qed.

(** X30.  The text of a reply is extracted exactly when the reply has the
    expected shape, and it is then the text of the first part of the first
    candidate without its surrounding white space. *)
Theorem candidate_text_iff_shape (result : json) (s : string) :
  TrustLensAI.candidate_text result = Some s
  <-> exists text, reply_shape result text /\ s = strip text.
Proof.
  split.
  - apply NarrativeFacts.candidate_text_shape.
  - intros (text & Sh & ->).
    exact (proj2 (NarrativeMore.shape_text result text Sh)).
Qed.

End EdgeFacts.
